(** * Skills form (src/src/App.js): category/skill store and suggestion client

    A shallow embedding of the handlers of the [App] component: the React
    state becomes a record that every handler takes and returns, the
    network and [JSON.parse] become an environment the handlers read, and
    what a handler does to the outside world (requests, back-off waits,
    console messages) is collected in a trace. *)

From stdpp Require Import gmap strings list fin_maps.
From Stdlib Require Import ZArith Ascii.

Local Open Scope Z_scope.

(** ** JavaScript string primitives used by the component *)

Module JsString.

(** White space as [String.prototype.trim] sees it, for code units in
    the ASCII range (tab, line feed, vertical tab, form feed, carriage
    return, space). *)
Definition isWhiteSpace (c : ascii) : bool := Ascii.is_space c.

Fixpoint trimStart (s : string) : string :=
  match s with
  | EmptyString => EmptyString
  | String c s' => if isWhiteSpace c then trimStart s' else s
  end.

Definition trimEnd (s : string) : string :=
  String.rev (trimStart (String.rev s)).

Definition trim (s : string) : string := trimEnd (trimStart s).

(** [s.split(sep)] for a separator of one code unit; [cur] holds the
    current piece, last code unit first. *)
Fixpoint split_go (sep : ascii) (cur : string) (s : string) : list string :=
  match s with
  | EmptyString => [String.rev cur]
  | String c s' =>
      if Ascii.eqb c sep
      then String.rev cur :: split_go sep EmptyString s'
      else split_go sep (String c cur) s'
  end.

Definition split (sep : ascii) (s : string) : list string :=
  split_go sep EmptyString s.

(** [s.startsWith(p)] *)
Fixpoint startsWith (p s : string) : bool :=
  match p, s with
  | EmptyString, _ => true
  | String _ _, EmptyString => false
  | String a p', String b s' => Ascii.eqb a b && startsWith p' s'
  end.

(** [s.includes(p)] *)
Fixpoint includes (p s : string) : bool :=
  startsWith p s ||
  match s with
  | EmptyString => false
  | String _ s' => includes p s'
  end.

(** [s.replace(p, "")] for a string [s] that starts with [p]: the first
    occurrence of [p] is the prefix, which is dropped. *)
Fixpoint dropPrefix (p s : string) : string :=
  match p, s with
  | String _ p', String _ s' => dropPrefix p' s'
  | _, _ => s
  end.

(** JavaScript truthiness of a string. *)
Definition truthy (s : string) : bool := negb (String.eqb s "").

End JsString.

Import JsString.

(** ** Data model *)

(** [skillsByCategory]: broad category key -> sub-category -> skills. *)
Abbreviation SubCategoryMap := (gmap string (list string)).
Abbreviation SkillMap := (gmap string (gmap string (list string))).

Record AppState := mkAppState {
  selectedBroadCategories : list string;
  skillsByCategory : SkillMap;
  newSkillInput : string;
  activeBroadCategory : string;
  activeSubCategory : string;
  newCustomBroadCategory : string;
  suggestedSubCategories : list string;
  suggestedSpecificSkills : list string;
  loadingSubCategories : bool;
  loadingSpecificSkills : bool;
  loadingAutoCategorization : bool;
  selectedSuggestedSkill : string
}.

(** The [useState] setters. *)
Definition setSelectedBroadCategories (v : list string) (s : AppState) : AppState :=
  mkAppState v (skillsByCategory s) (newSkillInput s) (activeBroadCategory s)
    (activeSubCategory s) (newCustomBroadCategory s) (suggestedSubCategories s)
    (suggestedSpecificSkills s) (loadingSubCategories s) (loadingSpecificSkills s)
    (loadingAutoCategorization s) (selectedSuggestedSkill s).

Definition setSkillsByCategory (v : SkillMap) (s : AppState) : AppState :=
  mkAppState (selectedBroadCategories s) v (newSkillInput s) (activeBroadCategory s)
    (activeSubCategory s) (newCustomBroadCategory s) (suggestedSubCategories s)
    (suggestedSpecificSkills s) (loadingSubCategories s) (loadingSpecificSkills s)
    (loadingAutoCategorization s) (selectedSuggestedSkill s).

Definition setNewSkillInput (v : string) (s : AppState) : AppState :=
  mkAppState (selectedBroadCategories s) (skillsByCategory s) v (activeBroadCategory s)
    (activeSubCategory s) (newCustomBroadCategory s) (suggestedSubCategories s)
    (suggestedSpecificSkills s) (loadingSubCategories s) (loadingSpecificSkills s)
    (loadingAutoCategorization s) (selectedSuggestedSkill s).

Definition setActiveBroadCategory (v : string) (s : AppState) : AppState :=
  mkAppState (selectedBroadCategories s) (skillsByCategory s) (newSkillInput s) v
    (activeSubCategory s) (newCustomBroadCategory s) (suggestedSubCategories s)
    (suggestedSpecificSkills s) (loadingSubCategories s) (loadingSpecificSkills s)
    (loadingAutoCategorization s) (selectedSuggestedSkill s).

Definition setActiveSubCategory (v : string) (s : AppState) : AppState :=
  mkAppState (selectedBroadCategories s) (skillsByCategory s) (newSkillInput s)
    (activeBroadCategory s) v (newCustomBroadCategory s) (suggestedSubCategories s)
    (suggestedSpecificSkills s) (loadingSubCategories s) (loadingSpecificSkills s)
    (loadingAutoCategorization s) (selectedSuggestedSkill s).

Definition setNewCustomBroadCategory (v : string) (s : AppState) : AppState :=
  mkAppState (selectedBroadCategories s) (skillsByCategory s) (newSkillInput s)
    (activeBroadCategory s) (activeSubCategory s) v (suggestedSubCategories s)
    (suggestedSpecificSkills s) (loadingSubCategories s) (loadingSpecificSkills s)
    (loadingAutoCategorization s) (selectedSuggestedSkill s).

Definition setSuggestedSubCategories (v : list string) (s : AppState) : AppState :=
  mkAppState (selectedBroadCategories s) (skillsByCategory s) (newSkillInput s)
    (activeBroadCategory s) (activeSubCategory s) (newCustomBroadCategory s) v
    (suggestedSpecificSkills s) (loadingSubCategories s) (loadingSpecificSkills s)
    (loadingAutoCategorization s) (selectedSuggestedSkill s).

Definition setSuggestedSpecificSkills (v : list string) (s : AppState) : AppState :=
  mkAppState (selectedBroadCategories s) (skillsByCategory s) (newSkillInput s)
    (activeBroadCategory s) (activeSubCategory s) (newCustomBroadCategory s)
    (suggestedSubCategories s) v (loadingSubCategories s) (loadingSpecificSkills s)
    (loadingAutoCategorization s) (selectedSuggestedSkill s).

Definition setLoadingSubCategories (v : bool) (s : AppState) : AppState :=
  mkAppState (selectedBroadCategories s) (skillsByCategory s) (newSkillInput s)
    (activeBroadCategory s) (activeSubCategory s) (newCustomBroadCategory s)
    (suggestedSubCategories s) (suggestedSpecificSkills s) v (loadingSpecificSkills s)
    (loadingAutoCategorization s) (selectedSuggestedSkill s).

Definition setLoadingSpecificSkills (v : bool) (s : AppState) : AppState :=
  mkAppState (selectedBroadCategories s) (skillsByCategory s) (newSkillInput s)
    (activeBroadCategory s) (activeSubCategory s) (newCustomBroadCategory s)
    (suggestedSubCategories s) (suggestedSpecificSkills s) (loadingSubCategories s) v
    (loadingAutoCategorization s) (selectedSuggestedSkill s).

Definition setLoadingAutoCategorization (v : bool) (s : AppState) : AppState :=
  mkAppState (selectedBroadCategories s) (skillsByCategory s) (newSkillInput s)
    (activeBroadCategory s) (activeSubCategory s) (newCustomBroadCategory s)
    (suggestedSubCategories s) (suggestedSpecificSkills s) (loadingSubCategories s)
    (loadingSpecificSkills s) v (selectedSuggestedSkill s).

Definition setSelectedSuggestedSkill (v : string) (s : AppState) : AppState :=
  mkAppState (selectedBroadCategories s) (skillsByCategory s) (newSkillInput s)
    (activeBroadCategory s) (activeSubCategory s) (newCustomBroadCategory s)
    (suggestedSubCategories s) (suggestedSpecificSkills s) (loadingSubCategories s)
    (loadingSpecificSkills s) (loadingAutoCategorization s) v.

(** The state [useState] starts from. *)
Definition initialState : AppState :=
  mkAppState [] ∅ "" "" "" "" [] [] false false false "".

(** The broad categories offered for selection. *)
Definition broadCategories : list string :=
  [ "Creative & Design"; "Tech & Digital"; "Business & Professional";
    "Services & Personal Care"; "Manual & Trades"; "Education & Health";
    "Food & Hospitality" ].

(** [array.includes(x)] on an array of strings. *)
Definition arrayIncludes (x : string) (l : list string) : bool :=
  bool_decide (x ∈ l).

(** ** The outside world *)

(** The body of a [generateContent] response, as far as the component
    reads it; [None] stands for a property that is missing. *)
Record Part := mkPart { text : option string }.
Record Content := mkContent { parts : option (list Part) }.
Record Candidate := mkCandidate { content : option Content }.
Record GenerateContentResult := mkResult { candidates : option (list Candidate) }.

(** What [await fetch(...)] followed by [await response.json()] gives:
    the promise rejects, or a response arrives with its [ok] flag and a
    body that is JSON or not. *)
Inductive FetchOutcome :=
| FetchRejected
| FetchResponse (ok : bool) (json : option GenerateContentResult).

(** The object the auto-categorization prompt asks for: its
    [responseSchema] declares both properties as strings, and the model
    takes a parsed value to have both (either may be the empty string). *)
Record ParsedJson := mkParsedJson { broadCategory : string; subCategory : string }.

(** The environment of one run of an operation: the outcome of the
    request made when the loop counter [attempts] has a given value, and
    [JSON.parse] ([None]: it throws). *)
Record Env := mkEnv {
  fetch : nat → FetchOutcome;
  JSON_parse : string → option ParsedJson
}.

Inductive Request :=
| ReqSubCategories (category : string)
| ReqSpecificSkills (broadCat subCat : string)
| ReqAutoCategorize (skill : string).

Inductive Event :=
| EvFetch (req : Request)
| EvConsoleError (attempt : nat) (req : Request)
| EvWait (ms : Z)
| EvWarnNoCategory
| EvWarnDuplicate (skill category subCategory : string).

Definition maxAttempts : nat := 5.
Definition baseDelay : Z := 1000.

(** [baseDelay * Math.pow(2, attempts - 1)] *)
Definition backoffDelay (attempts : nat) : Z :=
  baseDelay * 2 ^ (Z.of_nat attempts - 1).

(** The part of every [try] block that the three loops share: the request
    is sent, a response that is not [ok] throws, the body is read as JSON,
    and the text of the first part of the first candidate is taken; a
    response without that shape throws. [None]: the [catch] block runs. *)
Definition firstPartText (o : FetchOutcome) : option (option string) :=
  match o with
  | FetchRejected => None
  | FetchResponse false _ => None
  | FetchResponse true None => None
  | FetchResponse true (Some result) =>
      match candidates result with
      | Some (c :: _) =>
          match content c with
          | Some ct =>
              match parts ct with
              | Some (p :: _) => Some (text p)
              | _ => None
              end
          | None => None
          end
      | _ => None
      end
  end.

(** [text.split(',').map(s => s.trim()).filter(s => s.length > 0)] *)
Definition parseList (t : string) : list string :=
  List.filter truthy (List.map trim (split "," t)).

(** One pass through the [try] block of [fetchSubCategories] and of
    [fetchSpecificSkills]: the parsed list, or [None] when something in it
    throws ([text.split] throws when the part has no text). *)
Definition tryFetchList (o : FetchOutcome) : option (list string) :=
  match firstPartText o with
  | Some (Some t) => Some (parseList t)
  | _ => None
  end.

(** ** Suggestion client *)

(** The [while (attempts < maxAttempts)] loop of [fetchSubCategories].
    Every pass either leaves the loop or adds one to [attempts], so
    [S maxAttempts] evaluations of the loop test are enough; [fuel] counts
    them, and [None] means the fuel ran out. *)
Fixpoint fetchSubCategories_loop (fuel : nat) (env : Env) (category : string)
    (attempts : nat) (s : AppState) (tr : list Event)
    : option (AppState * list Event) :=
  match fuel with
  | O => None
  | S fuel' =>
      if (attempts <? maxAttempts)%nat then
        let tr := tr ++ [EvFetch (ReqSubCategories category)] in
        match tryFetchList (fetch env attempts) with
        | Some parsed =>
            (* setSuggestedSubCategories(parsed); break; *)
            Some (setSuggestedSubCategories parsed s, tr)
        | None =>
            let tr := tr ++ [EvConsoleError (attempts + 1) (ReqSubCategories category)] in
            let attempts := (attempts + 1)%nat in
            let tr := if (attempts <? maxAttempts)%nat
                      then tr ++ [EvWait (backoffDelay attempts)] else tr in
            fetchSubCategories_loop fuel' env category attempts s tr
        end
      else Some (s, tr)
  end.

Definition fetchSubCategories (env : Env) (category : string) (s : AppState)
    : option (AppState * list Event) :=
  if negb (truthy category) || String.eqb category "Other" then
    Some (setSuggestedSubCategories [] s, [])
  else
    let s := setLoadingSubCategories true s in
    match fetchSubCategories_loop (S maxAttempts) env category 0 s [] with
    | Some (s, tr) => Some (setLoadingSubCategories false s, tr)
    | None => None
    end.

(** The loop of [fetchSpecificSkills]. *)
Fixpoint fetchSpecificSkills_loop (fuel : nat) (env : Env) (broadCat subCat : string)
    (attempts : nat) (s : AppState) (tr : list Event)
    : option (AppState * list Event) :=
  match fuel with
  | O => None
  | S fuel' =>
      if (attempts <? maxAttempts)%nat then
        let tr := tr ++ [EvFetch (ReqSpecificSkills broadCat subCat)] in
        match tryFetchList (fetch env attempts) with
        | Some parsed =>
            Some (setSuggestedSpecificSkills parsed s, tr)
        | None =>
            let tr := tr ++ [EvConsoleError (attempts + 1) (ReqSpecificSkills broadCat subCat)] in
            let attempts := (attempts + 1)%nat in
            let tr := if (attempts <? maxAttempts)%nat
                      then tr ++ [EvWait (backoffDelay attempts)] else tr in
            fetchSpecificSkills_loop fuel' env broadCat subCat attempts s tr
        end
      else Some (s, tr)
  end.

Definition fetchSpecificSkills (env : Env) (broadCat subCat : string) (s : AppState)
    : option (AppState * list Event) :=
  if negb (truthy broadCat) || negb (truthy subCat) || String.eqb broadCat "Other" then
    Some (setSuggestedSpecificSkills [] s, [])
  else
    let s := setLoadingSpecificSkills true s in
    match fetchSpecificSkills_loop (S maxAttempts) env broadCat subCat 0 s [] with
    | Some (s, tr) => Some (setLoadingSpecificSkills false s, tr)
    | None => None
    end.

(** One pass through the [try] block of the auto-categorization loop up to
    [JSON.parse(jsonString)]; [None] when something in it throws
    ([JSON.parse] of a missing text throws as well). *)
Definition tryAutoCategorize (env : Env) (o : FetchOutcome) : option ParsedJson :=
  match firstPartText o with
  | Some (Some jsonString) => JSON_parse env jsonString
  | _ => None
  end.

(** [if (!selectedBroadCategories.includes(cat))
      setSelectedBroadCategories(prev => [...prev, cat])], the statement
    [handleAddSkill] uses for every category it marks as selected. The
    test reads the array of the state the handler was created with
    ([closure]); the update applies to the state [s] of that moment. *)
Definition selectIfMissing (cat : string) (closure s : AppState) : AppState :=
  if negb (arrayIncludes cat (selectedBroadCategories closure))
  then setSelectedBroadCategories (selectedBroadCategories s ++ [cat]) s
  else s.

(** The loop of [handleAddSkill]. [closure] is the state the handler was
    created with (what [selectedBroadCategories] and [newSkillInput] read
    in its body), [s] the state the setters' [prev => ...] updates apply
    to; the result carries [targetBroadCategory] and [targetSubCategory]. *)
Fixpoint autoCategorize_loop (fuel : nat) (env : Env) (closure : AppState)
    (attempts : nat) (targetBroadCategory targetSubCategory : string)
    (s : AppState) (tr : list Event)
    : option (string * string * AppState * list Event) :=
  match fuel with
  | O => None
  | S fuel' =>
      if (attempts <? maxAttempts)%nat then
        let req := ReqAutoCategorize (trim (newSkillInput closure)) in
        let tr := tr ++ [EvFetch req] in
        match tryAutoCategorize env (fetch env attempts) with
        | Some parsedJson =>
            let targetBroadCategory := broadCategory parsedJson in
            let targetSubCategory := subCategory parsedJson in
            if String.eqb targetBroadCategory "Other" then
              let targetBroadCategory := "Other_Auto_Uncategorized" in
              let targetSubCategory :=
                if truthy (subCategory parsedJson)
                then subCategory parsedJson else "General" in
              Some (targetBroadCategory, targetSubCategory,
                    selectIfMissing "Other" closure s, tr)
            else
              Some (targetBroadCategory, targetSubCategory,
                    selectIfMissing targetBroadCategory closure s, tr)
        | None =>
            let tr := tr ++ [EvConsoleError (attempts + 1) req] in
            let attempts := (attempts + 1)%nat in
            let tr := if (attempts <? maxAttempts)%nat
                      then tr ++ [EvWait (backoffDelay attempts)] else tr in
            if (attempts =? maxAttempts)%nat then
              autoCategorize_loop fuel' env closure attempts
                "Other_Auto_Uncategorized" "General"
                (selectIfMissing "Other" closure s) tr
            else
              autoCategorize_loop fuel' env closure attempts
                targetBroadCategory targetSubCategory s tr
        end
      else Some (targetBroadCategory, targetSubCategory, s, tr)
  end.

(** ** Category/skill store *)

Definition formatCategoryForDisplay (catKey : string) : string :=
  if startsWith "Other_Custom_" catKey then
    "Custom: " +:+ dropPrefix "Other_Custom_" catKey
  else if startsWith "Other_Auto_Uncategorized" catKey then
    "Auto-Uncategorized"
  else if startsWith "Other_Auto_" catKey then
    "Auto-Categorized: " +:+ dropPrefix "Other_Auto_" catKey
  else catKey.

(** [skillsByCategory[broadCat]?.[subCat]] *)
Definition skillsAt (m : SkillMap) (broadCat subCat : string) : option (list string) :=
  m !! broadCat ≫= (λ subCats, subCats !! subCat).

(** The skill [handleAddSkill] is about to add: the typed one when it is
    not blank, the selected suggestion otherwise. *)
Definition skillToAdd (s : AppState) : string :=
  let skillToAdd := trim (selectedSuggestedSkill s) in
  if negb (String.eqb (trim (newSkillInput s)) "")
  then trim (newSkillInput s) else skillToAdd.

(** Lines 378-389 of [handleAddSkill]: the active category and
    sub-category, or the custom category under sub-category General. *)
Definition customTarget (s : AppState) : string * string * AppState :=
  let targetBroadCategory := activeBroadCategory s in
  let targetSubCategory := activeSubCategory s in
  if String.eqb (activeBroadCategory s) "Other"
     && negb (String.eqb (trim (newCustomBroadCategory s)) "") then
    let targetBroadCategory := "Other_Custom_" +:+ trim (newCustomBroadCategory s) in
    let targetSubCategory := "General" in
    (targetBroadCategory, targetSubCategory, selectIfMissing targetBroadCategory s s)
  else (targetBroadCategory, targetSubCategory, s).

(** The test that guards the auto-categorization loop (line 393). *)
Definition needsAutoCategorization (closure : AppState)
    (targetBroadCategory targetSubCategory : string) : bool :=
  (negb (truthy targetBroadCategory) || negb (truthy targetSubCategory)
   || String.eqb targetBroadCategory "Other")
  && negb (String.eqb (trim (newSkillInput closure)) "")
  && negb (loadingAutoCategorization closure).

(** Lines 391-467: the target after auto-categorization, when it runs. *)
Definition resolveTarget (env : Env) (closure : AppState)
    : option (string * string * AppState * list Event) :=
  let '(targetBroadCategory, targetSubCategory, s) := customTarget closure in
  if needsAutoCategorization closure targetBroadCategory targetSubCategory then
    let s := setLoadingAutoCategorization true s in
    match autoCategorize_loop (S maxAttempts) env closure 0
            targetBroadCategory targetSubCategory s [] with
    | Some (targetBroadCategory, targetSubCategory, s, tr) =>
        Some (targetBroadCategory, targetSubCategory,
              setLoadingAutoCategorization false s, tr)
    | None => None
    end
  else Some (targetBroadCategory, targetSubCategory, s, []).

(** The updater of line 488:
    [{...prev, [b]: {...(prev[b] || {}), [sc]: [...(prev[b]?.[sc] || []), skill]}}] *)
Definition appendSkill (b sc skill : string) (prev : SkillMap) : SkillMap :=
  <[b := <[sc := default [] (skillsAt prev b sc) ++ [skill]]> (default ∅ (prev !! b))]> prev.

(** [handleAddSkill], run from the state [closure] it was created with:
    the state after it and what it did. [None]: the loop ran out of fuel. *)
Definition handleAddSkill (env : Env) (closure : AppState)
    : option (AppState * list Event) :=
  let skillToAdd := skillToAdd closure in
  if String.eqb skillToAdd "" then Some (closure, []) else
  match resolveTarget env closure with
  | None => None
  | Some (targetBroadCategory, targetSubCategory, s, tr) =>
      if negb (truthy targetBroadCategory) then
        Some (setSelectedSuggestedSkill "" (setNewSkillInput "" s),
              tr ++ [EvWarnNoCategory])
      else
        let targetSubCategory :=
          if negb (truthy targetSubCategory) then "General" else targetSubCategory in
        if from_option (arrayIncludes skillToAdd) false
             (skillsAt (skillsByCategory closure) targetBroadCategory targetSubCategory)
        then
          Some (setSelectedSuggestedSkill "" (setNewSkillInput "" s),
                tr ++ [EvWarnDuplicate skillToAdd
                         (formatCategoryForDisplay targetBroadCategory)
                         targetSubCategory])
        else
          let s := setSkillsByCategory
                     (appendSkill targetBroadCategory targetSubCategory skillToAdd
                        (skillsByCategory s)) s in
          Some (setSelectedSuggestedSkill "" (setNewSkillInput "" s), tr)
  end.

(** [handleRemoveSkill]. [None]: [newBroadCatState[subCat]] is undefined
    and calling [filter] on it throws. *)
Definition handleRemoveSkill (broadCat subCat skillToRemove : string) (s : AppState)
    : option AppState :=
  let prev := skillsByCategory s in
  let newBroadCatState := default ∅ (prev !! broadCat) in
  match newBroadCatState !! subCat with
  | None => None
  | Some skills =>
      let filtered := filter (λ skill, skill ≠ skillToRemove) skills in
      let newBroadCatState := <[subCat := filtered]> newBroadCatState in
      let newBroadCatState :=
        if bool_decide (length filtered = 0%nat)
        then delete subCat newBroadCatState else newBroadCatState in
      if bool_decide (size newBroadCatState = 0%nat) then
        let newState := delete broadCat prev in
        let s :=
          if startsWith "Other_Custom_" broadCat || startsWith "Other_Auto_" broadCat then
            setSelectedBroadCategories
              (filter (λ c, c ≠ broadCat ∧ c ≠ "Other") (selectedBroadCategories s)) s
          else if arrayIncludes broadCat broadCategories then
            setSelectedBroadCategories
              (filter (λ c, c ≠ broadCat) (selectedBroadCategories s)) s
          else s in
        Some (setSkillsByCategory newState s)
      else Some (setSkillsByCategory (<[broadCat := newBroadCatState]> prev) s)
  end.

(** [Object.keys(o)]; the order is the map's own, which the loops below
    do not depend on. *)
Definition keys {V : Type} (o : gmap string V) : list string := (map_to_list o).*1.

(** The updater of [handleBroadCategoryChange] for an unchecked box
    (lines 326-339). *)
Definition clearBroadCategory (value : string) (prev : SkillMap) : SkillMap :=
  let newState := delete value prev in
  foldl (λ newState key,
           let newState :=
             if startsWith "Other_Custom_" key && includes ("__" +:+ value) key
             then delete key newState else newState in
           if startsWith "Other_Auto_" key && includes ("__" +:+ value) key
           then delete key newState else newState)
        newState (keys newState).

Definition handleBroadCategoryChange (value : string) (checked : bool) (s : AppState)
    : AppState :=
  let closure := s in
  let s :=
    if arrayIncludes value broadCategories || String.eqb value "Other" then
      setSelectedBroadCategories
        (if checked then selectedBroadCategories s ++ [value]
         else filter (λ cat, cat ≠ value) (selectedBroadCategories s)) s
    else s in
  if negb checked then
    let s := setSkillsByCategory (clearBroadCategory value (skillsByCategory s)) s in
    if String.eqb (activeBroadCategory closure) value then
      setSuggestedSpecificSkills []
        (setSuggestedSubCategories []
           (setActiveSubCategory "" (setActiveBroadCategory "" s)))
    else s
  else
    setSuggestedSpecificSkills []
      (setActiveSubCategory "" (setActiveBroadCategory value s)).

(** The two [for ... in] loops of [saveSkills] (lines 168-180): the map
    handed to [setDoc]. An array is truthy, so the test
    [subCats[subCat] && subCats[subCat].length > 0] is the length test. *)
Definition cleanedSubCats (subCats : SubCategoryMap) : SubCategoryMap :=
  map_fold (λ subCat skills cleanedSubCats,
              if bool_decide (0 < length skills)%nat
              then <[subCat := skills]> cleanedSubCats else cleanedSubCats)
           ∅ subCats.

Definition cleanedSkills (skillsByCategory : SkillMap) : SkillMap :=
  map_fold (λ broadCat subCats cleanedSkills,
              let cleanedSubCats := cleanedSubCats subCats in
              if bool_decide (0 < size cleanedSubCats)%nat
              then <[broadCat := cleanedSubCats]> cleanedSkills else cleanedSkills)
           ∅ skillsByCategory.

(** ** The retry policy, in the words of the specification

    Attempts are numbered from 1. A failed attempt [k] is a request, a
    console error carrying [k], and, when [k < 5], a wait of
    [1000ms * 2^(k-1)] before the next attempt. *)
Definition failedAttempt (req : Request) (k : nat) : list Event :=
  [EvFetch req; EvConsoleError k req]
  ++ (if (k <? 5)%nat then [EvWait (1000 * 2 ^ (Z.of_nat k - 1))] else []).

Definition failedAttempts (req : Request) (n : nat) : list Event :=
  flat_map (failedAttempt req) (seq 1 n).

(** [RetryRun attempt req r tr]: a run under the policy, where
    [attempt j] is what the [(j+1)]-th attempt would give. Either some
    attempt among the first five succeeds, all before it fail, the run
    ends with that attempt's request and returns its output; or all five
    fail and nothing is returned. *)
Inductive RetryRun {A : Type} (attempt : nat → option A) (req : Request)
    : option A → list Event → Prop :=
| RetrySucceeds (k : nat) (out : A) :
    (k < 5)%nat →
    (∀ j, (j < k)%nat → attempt j = None) →
    attempt k = Some out →
    RetryRun attempt req (Some out) (failedAttempts req k ++ [EvFetch req])
| RetryExhausted :
    (∀ j, (j < 5)%nat → attempt j = None) →
    RetryRun attempt req None (failedAttempts req 5).

Definition isFetch (e : Event) : bool :=
  match e with EvFetch _ => true | _ => false end.

(** The number of requests in a trace and the waits in it, in order. *)
Definition fetchCount (tr : list Event) : nat := length (List.filter isFetch tr).

Definition waits (tr : list Event) : list Z :=
  omap (λ e, match e with EvWait ms => Some ms | _ => None end) tr.

(** The category that a successful auto-categorization marks as
    selected. *)
Definition selectedOfParsed (parsedJson : ParsedJson) : string :=
  if String.eqb (broadCategory parsedJson) "Other"
  then "Other" else broadCategory parsedJson.

(** What the store is given for the output of a successful
    auto-categorization: a broad category Other becomes the key for
    uncategorized skills. *)
Definition targetOfParsed (parsedJson : ParsedJson) : string * string :=
  if String.eqb (broadCategory parsedJson) "Other"
  then ("Other_Auto_Uncategorized",
        if truthy (subCategory parsedJson) then subCategory parsedJson else "General")
  else (broadCategory parsedJson, subCategory parsedJson).

(** The target and the selected category that the auto-categorization
    loop leaves for the result [r] of its run ([None]: exhausted). *)
Definition autoTarget (r : option ParsedJson) : string * string :=
  match r with
  | Some parsedJson => targetOfParsed parsedJson
  | None => ("Other_Auto_Uncategorized", "General")
  end.

Definition autoSelected (r : option ParsedJson) : string :=
  match r with
  | Some parsedJson => selectedOfParsed parsedJson
  | None => "Other"
  end.

(** ** Notions the claims are stated with *)

(** The sub-category [handleAddSkill] files under: General when none is
    resolved. *)
Definition orGeneral (subCat : string) : string :=
  if negb (truthy subCat) then "General" else subCat.


(** Two states hold the same form inputs: what the user typed and
    selected, and whether an auto-categorization is under way. *)
Definition sameInputs (s1 s2 : AppState) : Prop :=
  newSkillInput s1 = newSkillInput s2
  ∧ selectedSuggestedSkill s1 = selectedSuggestedSkill s2
  ∧ activeBroadCategory s1 = activeBroadCategory s2
  ∧ activeSubCategory s1 = activeSubCategory s2
  ∧ newCustomBroadCategory s1 = newCustomBroadCategory s2
  ∧ loadingAutoCategorization s1 = loadingAutoCategorization s2.



(** No sub-category has an empty sequence and no broad category has an
    empty mapping. *)
Definition noEmptyContainer (m : SkillMap) : Prop :=
  ∀ broadCat subCats,
    m !! broadCat = Some subCats →
    subCats ≠ ∅ ∧ ∀ subCat skills, subCats !! subCat = Some skills → skills ≠ [].

(** A key in one of the two name spaces under Other. *)
Definition isNamespaced (key : string) : bool :=
  startsWith "Other_Custom_" key || startsWith "Other_Auto_" key.

(** ** Inputs of the examples *)

Definition okResponse (t : string) : FetchOutcome :=
  FetchResponse true
    (Some (mkResult (Some [mkCandidate (Some (mkContent (Some [mkPart (Some t)])))]))).

(** Every request is rejected. *)
Definition envDown : Env := mkEnv (λ _, FetchRejected) (λ _, None).

(** Four responses with an error status, then a response with a list. *)
Definition envFifth : Env :=
  mkEnv (λ k, if (k =? 4)%nat then okResponse "Mixing, Mastering ,, Sound Design"
              else FetchResponse false None)
        (λ _, None).

(** Suggestions of an earlier category are on display. *)
Definition staleSuggestions : AppState :=
  setSuggestedSpecificSkills ["Logo Design"]
    (setSuggestedSubCategories ["Graphic Design"; "Illustration"] initialState).

(** A skill typed with no category selected. *)
Definition typedJuggling : AppState := setNewSkillInput " Juggling " initialState.

(** A skill typed under a selected category and sub-category. *)
Definition typedSongwriting : AppState :=
  setNewSkillInput "Songwriting"
    (setActiveSubCategory "Music Production"
       (setActiveBroadCategory "Creative & Design"
          (setSelectedBroadCategories ["Creative & Design"] initialState))).




(** Skills under two custom categories. *)
Definition twoCustomCategories : AppState :=
  setSkillsByCategory
    {[ "Other_Custom_Falconry" := {[ "General" := ["Hawk training"] ]};
       "Other_Custom_Beekeeping" := {[ "General" := ["Queen rearing"] ]} ]}
    (setSelectedBroadCategories
       ["Other"; "Other_Custom_Falconry"; "Other_Custom_Beekeeping"] initialState).

(** The events that lead there from the initial state: the Other box is
    checked, then two skills are typed, each with a custom category name,
    and added. [None] would mean that an add did not return. *)
Definition enterTwoCustomCategories : option AppState :=
  let s := handleBroadCategoryChange "Other" true initialState in
  let s := setNewSkillInput "Hawk training" (setNewCustomBroadCategory "Falconry" s) in
  s ← fst <$> handleAddSkill envDown s;
  let s := setNewSkillInput "Queen rearing" (setNewCustomBroadCategory "Beekeeping" s) in
  fst <$> handleAddSkill envDown s.

(** Skills under a standard category and under a custom key qualified by
    it. *)
Definition qualifiedCustomCategory : AppState :=
  setSkillsByCategory
    {[ "Creative & Design" := {[ "Music Production" := ["Songwriting"] ]};
       "Other_Custom_Specialized Consulting__Creative & Design"
         := {[ "General" := ["Brand audits"] ]};
       "Tech & Digital" := {[ "Web" := ["CSS"] ]} ]}
    (setActiveBroadCategory "Creative & Design"
       (setSelectedBroadCategories ["Creative & Design"; "Other"; "Tech & Digital"]
          initialState)).

(** ** Loading, the views of the store, and the two selection handlers *)

(** [set.add(x)] on a [Set], kept as the list of its elements in
    insertion order. *)
Definition setAdd (x : string) (set : list string) : list string :=
  if arrayIncludes x set then set else set ++ [x].

(** [Array.from(new Set(array))] *)
Definition setFromArray (array : list string) : list string :=
  foldl (λ set x, setAdd x set) [] array.

(** The [forEach] of [loadSkills] (lines 109-120) over the keys of the
    loaded map, in the order [keyList] gives them. [closure] is the state
    the effect was created with; [some(c => c === broadCatKey)] on an
    array of strings is [includes]. *)
Definition loadedBroadCategories (closure : AppState) (keyList : list string)
    : list string :=
  foldl (λ loadedBroadCategories broadCatKey,
           if arrayIncludes broadCatKey broadCategories then
             setAdd broadCatKey loadedBroadCategories
           else if startsWith "Other_Custom_" broadCatKey
                   || startsWith "Other_Auto_" broadCatKey then
             let loadedBroadCategories := setAdd "Other" loadedBroadCategories in
             if negb (arrayIncludes broadCatKey (selectedBroadCategories closure))
             then setAdd broadCatKey loadedBroadCategories
             else loadedBroadCategories
           else loadedBroadCategories)
        [] keyList.

(** What [await getDoc(...)] gives [loadSkills]: the promise rejects, the
    document does not exist, or it exists with or without a [skills]
    field. *)
Inductive DocSnap :=
| GetDocRejected
| DocMissing
| DocData (skills : option SkillMap).

(** [loadSkills] (lines 101-131). *)
Definition loadSkills (docSnap : DocSnap) (closure s : AppState) : AppState :=
  match docSnap with
  | DocData (Some skills) =>
      let s := setSkillsByCategory skills s in
      let loaded := loadedBroadCategories closure (keys skills) in
      setSelectedBroadCategories
        (setFromArray (selectedBroadCategories s ++ loaded)) s
  | _ => s
  end.

(** [Object.values(o)] and [Object.entries(o)], in the map's own order. *)
Definition values {V : Type} (o : gmap string V) : list V := (map_to_list o).*2.
Definition entries {V : Type} (o : gmap string V) : list (string * V) := map_to_list o.

(** [skillsToDisplay] (lines 544-548): the entries with a sub-category
    that has a skill, put back into an object. *)
Definition skillsToDisplay (skillsByCategory : SkillMap) : SkillMap :=
  list_to_map
    (filter (λ entry, Exists (λ skills, 0 < length skills)%nat (values entry.2))
       (entries skillsByCategory)).

(** The [disabled] attribute of the Continue button (line 792). *)
Definition continueDisabled (skillsByCategory : SkillMap) (isAuthReady : bool)
    (savingStatus : string) : bool :=
  forallb (λ broadCatSkills,
             forallb (λ subCatSkills, (length subCatSkills =? 0)%nat)
               (values broadCatSkills))
    (values skillsByCategory)
  || negb isAuthReady
  || String.eqb savingStatus "Saving...".

Definition handleActiveBroadCategoryChange (value : string) (s : AppState) : AppState :=
  setNewCustomBroadCategory ""
    (setSelectedSuggestedSkill ""
       (setNewSkillInput ""
          (setActiveSubCategory "" (setActiveBroadCategory value s)))).

Definition handleActiveSubCategoryChange (value : string) (s : AppState) : AppState :=
  setSelectedSuggestedSkill "" (setNewSkillInput "" (setActiveSubCategory value s)).

(** No sequence of the store holds a skill twice. *)
Definition noDuplicateSkill (m : SkillMap) : Prop :=
  ∀ broadCat subCat skills, skillsAt m broadCat subCat = Some skills → NoDup skills.

(** The code units of a string. *)
Fixpoint codeUnits (s : string) : list ascii :=
  match s with
  | EmptyString => []
  | String c s' => c :: codeUnits s'
  end.

(** The first request is answered with the JSON text of a category that
    is not among the standard ones. *)
Definition envSports : Env :=
  mkEnv (λ _, okResponse "sports")
        (λ t, if String.eqb t "sports" then Some (mkParsedJson "Sports" "Juggling acts")
              else None).

(** The first request is answered with an empty broad category. *)
Definition envNoCategory : Env :=
  mkEnv (λ _, okResponse "none")
        (λ t, if String.eqb t "none" then Some (mkParsedJson "" "") else None).

(** A suggestion picked while the active broad category is the bare
    Other, with no custom name typed. *)
Definition pickedUnderOther : AppState :=
  setSelectedSuggestedSkill "Mixing"
    (setActiveBroadCategory "Other" (setSelectedBroadCategories ["Other"] initialState)).

(** ** The form: its controls and the handlers they call

    The events of a session are taken one at a time: a handler or an
    effect runs to its end, from the state it was created with, before the
    next event. *)

(** Section 2 of the form is rendered (line 598). *)
Definition skillSectionShown (s : AppState) : bool :=
  (0 <? length (selectedBroadCategories s))%nat.

(** The values of the options of the broad-category dropdown
    (lines 613-626). *)
Definition activeBroadCategoryOptions (s : AppState) : list string :=
  "" ::
  List.filter (λ cat, negb (startsWith "Other_Custom_" cat)
                      && negb (startsWith "Other_Auto_Uncategorized" cat))
    (selectedBroadCategories s)
  ++ List.filter (λ cat, (startsWith "Other_Custom_" cat
                          || startsWith "Other_Auto_Uncategorized" cat)
                         && negb (arrayIncludes cat (selectedBroadCategories s)))
       (keys (skillsByCategory s)).

(** The condition of line 647, under which the sub-category dropdown, the
    suggested skills, the skill input and the Add button are rendered. *)
Definition skillFieldsShown (s : AppState) : bool :=
  skillSectionShown s
  && ((truthy (activeBroadCategory s)
       && negb (String.eqb (activeBroadCategory s) "Other"))
      || (String.eqb (activeBroadCategory s) "Other"
          && negb (String.eqb (trim (newCustomBroadCategory s)) ""))).

(** The [disabled] attribute of the Add button (lines 732-735). *)
Definition addDisabled (s : AppState) : bool :=
  (String.eqb (trim (newSkillInput s)) ""
   && String.eqb (trim (selectedSuggestedSkill s)) "")
  || loadingAutoCategorization s.

(** The remove buttons of the summary (lines 746-779), each as the
    arguments it passes to [handleRemoveSkill]. *)
Definition removeButtons (s : AppState) : list (string * string * string) :=
  entry ← entries (skillsToDisplay (skillsByCategory s));
  if decide (Exists (λ skills, 0 < length skills)%nat (values entry.2)) then
    subEntry ← entries entry.2;
    if (0 <? length subEntry.2)%nat
    then (λ skill, (entry.1, subEntry.1, skill)) <$> subEntry.2
    else []
  else [].

(** What can happen to the form: the user acts on a control, or one of
    the three effects runs. *)
Inductive FormEvent :=
| ToggleBroadCategory (category : string)
| ChooseActiveBroadCategory (value : string)
| TypeCustomBroadCategory (value : string)
| ChooseActiveSubCategory (value : string)
| ChooseSuggestedSkill (value : string)
| TypeSkill (value : string)
| PressEnter (env : Env)
| ClickAddSkill (env : Env)
| ClickRemoveSkill (broadCat subCat skill : string)
| RunLoadSkills (docSnap : DocSnap)
| RunFetchSubCategories (env : Env)
| RunFetchSpecificSkills (env : Env).

(** The control of a user event is rendered in state [s], enabled, and
    offers the value of the event. The checkboxes are those of the
    standard categories and of Other (lines 567-593); an effect can run
    in any state. *)
Definition offered (e : FormEvent) (s : AppState) : bool :=
  match e with
  | ToggleBroadCategory category => arrayIncludes category (broadCategories ++ ["Other"])
  | ChooseActiveBroadCategory value =>
      skillSectionShown s && arrayIncludes value (activeBroadCategoryOptions s)
  | TypeCustomBroadCategory _ =>
      skillSectionShown s && String.eqb (activeBroadCategory s) "Other"
  | ChooseActiveSubCategory value =>
      skillFieldsShown s && negb (loadingSubCategories s)
      && (0 <? length (suggestedSubCategories s))%nat
      && arrayIncludes value ("" :: suggestedSubCategories s)
  | ChooseSuggestedSkill value =>
      skillFieldsShown s
      && (0 <? length (suggestedSubCategories s))%nat
      && truthy (activeSubCategory s)
      && negb (loadingSpecificSkills s)
      && (0 <? length (suggestedSpecificSkills s))%nat
      && arrayIncludes value ("" :: suggestedSpecificSkills s)
  | TypeSkill _ | PressEnter _ => skillFieldsShown s
  | ClickAddSkill _ => skillFieldsShown s && negb (addDisabled s)
  | ClickRemoveSkill broadCat subCat skill =>
      bool_decide ((broadCat, subCat, skill) ∈ removeButtons s)
  | RunLoadSkills _ | RunFetchSubCategories _ | RunFetchSpecificSkills _ => true
  end.

(** The handler or effect of an event, run from the state [s]. A
    checkbox reports the opposite of what it shows (line 575); the
    effects read the state they were created with. [None]: the handler
    throws. *)
Definition handle (e : FormEvent) (s : AppState) : option AppState :=
  match e with
  | ToggleBroadCategory category =>
      Some (handleBroadCategoryChange category
              (negb (arrayIncludes category (selectedBroadCategories s))) s)
  | ChooseActiveBroadCategory value => Some (handleActiveBroadCategoryChange value s)
  | TypeCustomBroadCategory value => Some (setNewCustomBroadCategory value s)
  | ChooseActiveSubCategory value => Some (handleActiveSubCategoryChange value s)
  | ChooseSuggestedSkill value => Some (setSelectedSuggestedSkill value s)
  | TypeSkill value => Some (setNewSkillInput value s)
  | PressEnter env | ClickAddSkill env => fst <$> handleAddSkill env s
  | ClickRemoveSkill broadCat subCat skill => handleRemoveSkill broadCat subCat skill s
  | RunLoadSkills docSnap => Some (loadSkills docSnap s s)
  | RunFetchSubCategories env =>
      fst <$> fetchSubCategories env (activeBroadCategory s) s
  | RunFetchSpecificSkills env =>
      fst <$> fetchSpecificSkills env (activeBroadCategory s) (activeSubCategory s) s
  end.

Definition step (e : FormEvent) (s : AppState) : option AppState :=
  if offered e s then handle e s else None.

(** A session: the events in order; [None] when one of them is not
    offered or throws. *)
Fixpoint run (events : list FormEvent) (s : AppState) : option AppState :=
  match events with
  | [] => Some s
  | e :: events => step e s ≫= run events
  end.

(** Every custom category with an entry in the store is selected, the
    selection holds no category twice, and the active broad category is
    not a custom key. *)
Definition selectionInvariant (s : AppState) : Prop :=
  NoDup (selectedBroadCategories s)
  ∧ (∀ key, startsWith "Other_Custom_" key = true →
       is_Some (skillsByCategory s !! key) → key ∈ selectedBroadCategories s)
  ∧ startsWith "Other_Custom_" (activeBroadCategory s) = false.


(** A session that checks Other, names a custom category, types a skill
    and presses Enter, then loads, unchecks and removes. *)
Definition customCategorySession : list FormEvent :=
  [ ToggleBroadCategory "Other";
    TypeCustomBroadCategory "Falconry";
    TypeSkill " Hawk training ";
    PressEnter envDown;
    ToggleBroadCategory "Tech & Digital";
    TypeSkill "CSS";
    ClickAddSkill envSports;
    RunLoadSkills
      (DocData (Some {[ "Other_Custom_Beekeeping"
                          := {[ "General" := ["Queen rearing"] ]} ]}));
    RunFetchSubCategories envFifth;
    ClickRemoveSkill "Other_Custom_Beekeeping" "General" "Queen rearing" ].

(** * Properties *)

(** ** Strings and tests *)

Lemma eqb_false_of_ne (a b : string) : a ≠ b → String.eqb a b = false.
Proof. intros H. by apply String.eqb_neq. Qed.

Lemma truthy_true (a : string) : truthy a = true ↔ a ≠ "".
Proof. unfold truthy. rewrite negb_true_iff. apply String.eqb_neq. Qed.

Lemma arrayIncludes_true (x : string) (l : list string) :
  arrayIncludes x l = true ↔ x ∈ l.
Proof. unfold arrayIncludes. apply bool_decide_eq_true. Qed.

Lemma arrayIncludes_false (x : string) (l : list string) :
  arrayIncludes x l = false ↔ x ∉ l.
Proof. unfold arrayIncludes. apply bool_decide_eq_false. Qed.

(** ** The retry loops *)

Lemma failedAttempts_S (req : Request) (n : nat) :
  failedAttempts req (S n) = failedAttempts req n ++ failedAttempt req (S n).
Proof.
  unfold failedAttempts. rewrite seq_S, flat_map_app. simpl. by rewrite app_nil_r.
Qed.

(** What the [catch] block adds to the trace is a failed attempt of the
    policy. *)
Lemma catch_trace (tr : list Event) (req : Request) (attempts : nat) :
  (if (attempts + 1 <? maxAttempts)%nat
   then ((tr ++ [EvFetch req]) ++ [EvConsoleError (attempts + 1) req])
        ++ [EvWait (backoffDelay (attempts + 1))]
   else (tr ++ [EvFetch req]) ++ [EvConsoleError (attempts + 1) req])
  = tr ++ failedAttempt req (S attempts).
Proof.
  unfold failedAttempt, backoffDelay, baseDelay, maxAttempts.
  rewrite Nat.add_1_r. destruct (S attempts <? 5)%nat;
    rewrite <- !app_assoc; reflexivity.
Qed.

Section SubCategoriesLoop.
Variables (env : Env) (category : string).

Let req := ReqSubCategories category.
Let attempt (j : nat) := tryFetchList (fetch env j).

Lemma fetchSubCategories_loop_exit fuel attempts s tr :
  (maxAttempts ≤ attempts)%nat →
  fetchSubCategories_loop (S fuel) env category attempts s tr = Some (s, tr).
Proof.
  intros H. cbn [fetchSubCategories_loop].
  by rewrite (proj2 (Nat.ltb_ge _ _) H).
Qed.

Lemma fetchSubCategories_loop_ok fuel attempts s tr parsed :
  (attempts < maxAttempts)%nat → attempt attempts = Some parsed →
  fetchSubCategories_loop (S fuel) env category attempts s tr
  = Some (setSuggestedSubCategories parsed s, tr ++ [EvFetch req]).
Proof.
  intros H E. cbn [fetchSubCategories_loop].
  rewrite (proj2 (Nat.ltb_lt _ _) H). unfold attempt in E. by rewrite E.
Qed.

Lemma fetchSubCategories_loop_retry fuel attempts s tr :
  (attempts < maxAttempts)%nat → attempt attempts = None →
  fetchSubCategories_loop (S fuel) env category attempts s tr
  = fetchSubCategories_loop fuel env category (S attempts) s
      (tr ++ failedAttempt req (S attempts)).
Proof.
  intros H E. cbn [fetchSubCategories_loop].
  rewrite (proj2 (Nat.ltb_lt _ _) H). unfold attempt in E. rewrite E.
  rewrite <- (catch_trace tr req attempts), Nat.add_1_r.
  by destruct (S attempts <? maxAttempts)%nat.
Qed.

(** The loop entered with [attempts] failures behind it and enough fuel
    for the rest completes a run of the policy. *)
Lemma fetchSubCategories_loop_run (n : nat) : ∀ attempts s,
  (attempts + n = maxAttempts)%nat →
  (∀ j, (j < attempts)%nat → attempt j = None) →
  ∃ r tr,
    RetryRun attempt req r tr
    ∧ fetchSubCategories_loop (S n) env category attempts s (failedAttempts req attempts)
      = Some (match r with
              | Some parsed => setSuggestedSubCategories parsed s
              | None => s
              end, tr).
Proof.
  induction n as [|n IH]; intros attempts s Hn Hfail.
  - exists None, (failedAttempts req attempts). split.
    + assert (attempts = 5%nat) as -> by (unfold maxAttempts in Hn; lia).
      by apply RetryExhausted.
    + apply fetchSubCategories_loop_exit. lia.
  - assert (attempts < maxAttempts)%nat as Hlt by lia.
    destruct (attempt attempts) as [parsed|] eqn:E.
    + exists (Some parsed), (failedAttempts req attempts ++ [EvFetch req]). split.
      * by apply RetrySucceeds.
      * by apply fetchSubCategories_loop_ok.
    + rewrite fetchSubCategories_loop_retry, <- failedAttempts_S by done.
      apply IH; [lia|]. intros j Hj.
      destruct (decide (j = attempts)) as [->|]; [done|]. apply Hfail. lia.
Qed.

End SubCategoriesLoop.

Section SpecificSkillsLoop.
Variables (env : Env) (broadCat subCat : string).

Let req := ReqSpecificSkills broadCat subCat.
Let attempt (j : nat) := tryFetchList (fetch env j).

Lemma fetchSpecificSkills_loop_exit fuel attempts s tr :
  (maxAttempts ≤ attempts)%nat →
  fetchSpecificSkills_loop (S fuel) env broadCat subCat attempts s tr = Some (s, tr).
Proof.
  intros H. cbn [fetchSpecificSkills_loop].
  by rewrite (proj2 (Nat.ltb_ge _ _) H).
Qed.

Lemma fetchSpecificSkills_loop_ok fuel attempts s tr parsed :
  (attempts < maxAttempts)%nat → attempt attempts = Some parsed →
  fetchSpecificSkills_loop (S fuel) env broadCat subCat attempts s tr
  = Some (setSuggestedSpecificSkills parsed s, tr ++ [EvFetch req]).
Proof.
  intros H E. cbn [fetchSpecificSkills_loop].
  rewrite (proj2 (Nat.ltb_lt _ _) H). unfold attempt in E. by rewrite E.
Qed.

Lemma fetchSpecificSkills_loop_retry fuel attempts s tr :
  (attempts < maxAttempts)%nat → attempt attempts = None →
  fetchSpecificSkills_loop (S fuel) env broadCat subCat attempts s tr
  = fetchSpecificSkills_loop fuel env broadCat subCat (S attempts) s
      (tr ++ failedAttempt req (S attempts)).
Proof.
  intros H E. cbn [fetchSpecificSkills_loop].
  rewrite (proj2 (Nat.ltb_lt _ _) H). unfold attempt in E. rewrite E.
  rewrite <- (catch_trace tr req attempts), Nat.add_1_r.
  by destruct (S attempts <? maxAttempts)%nat.
Qed.

Lemma fetchSpecificSkills_loop_run (n : nat) : ∀ attempts s,
  (attempts + n = maxAttempts)%nat →
  (∀ j, (j < attempts)%nat → attempt j = None) →
  ∃ r tr,
    RetryRun attempt req r tr
    ∧ fetchSpecificSkills_loop (S n) env broadCat subCat attempts s
        (failedAttempts req attempts)
      = Some (match r with
              | Some parsed => setSuggestedSpecificSkills parsed s
              | None => s
              end, tr).
Proof.
  induction n as [|n IH]; intros attempts s Hn Hfail.
  - exists None, (failedAttempts req attempts). split.
    + assert (attempts = 5%nat) as -> by (unfold maxAttempts in Hn; lia).
      by apply RetryExhausted.
    + apply fetchSpecificSkills_loop_exit. lia.
  - assert (attempts < maxAttempts)%nat as Hlt by lia.
    destruct (attempt attempts) as [parsed|] eqn:E.
    + exists (Some parsed), (failedAttempts req attempts ++ [EvFetch req]). split.
      * by apply RetrySucceeds.
      * by apply fetchSpecificSkills_loop_ok.
    + rewrite fetchSpecificSkills_loop_retry, <- failedAttempts_S by done.
      apply IH; [lia|]. intros j Hj.
      destruct (decide (j = attempts)) as [->|]; [done|]. apply Hfail. lia.
Qed.

End SpecificSkillsLoop.

Section AutoCategorizeLoop.
Variables (env : Env) (closure : AppState).

Let req := ReqAutoCategorize (trim (newSkillInput closure)).
Let attempt (j : nat) := tryAutoCategorize env (fetch env j).

Lemma autoCategorize_loop_exit fuel attempts tb ts s tr :
  (maxAttempts ≤ attempts)%nat →
  autoCategorize_loop (S fuel) env closure attempts tb ts s tr = Some (tb, ts, s, tr).
Proof.
  intros H. cbn [autoCategorize_loop].
  by rewrite (proj2 (Nat.ltb_ge _ _) H).
Qed.

Lemma autoCategorize_loop_ok fuel attempts tb ts s tr parsedJson :
  (attempts < maxAttempts)%nat → attempt attempts = Some parsedJson →
  autoCategorize_loop (S fuel) env closure attempts tb ts s tr
  = Some ((targetOfParsed parsedJson).1, (targetOfParsed parsedJson).2,
          selectIfMissing (selectedOfParsed parsedJson) closure s,
          tr ++ [EvFetch req]).
Proof.
  intros H E. cbn [autoCategorize_loop].
  rewrite (proj2 (Nat.ltb_lt _ _) H). unfold attempt in E. rewrite E.
  unfold targetOfParsed, selectedOfParsed.
  by destruct (String.eqb (broadCategory parsedJson) "Other").
Qed.

Lemma autoCategorize_loop_retry fuel attempts tb ts s tr :
  (attempts < maxAttempts)%nat → attempt attempts = None →
  autoCategorize_loop (S fuel) env closure attempts tb ts s tr
  = if (S attempts =? maxAttempts)%nat then
      autoCategorize_loop fuel env closure (S attempts)
        "Other_Auto_Uncategorized" "General" (selectIfMissing "Other" closure s)
        (tr ++ failedAttempt req (S attempts))
    else
      autoCategorize_loop fuel env closure (S attempts) tb ts s
        (tr ++ failedAttempt req (S attempts)).
Proof.
  intros H E. cbn [autoCategorize_loop].
  rewrite (proj2 (Nat.ltb_lt _ _) H). unfold attempt in E. rewrite E.
  rewrite <- (catch_trace tr req attempts), Nat.add_1_r.
  by destruct (S attempts <? maxAttempts)%nat.
Qed.

(** The loop entered with [attempts] failures behind it completes a run
    of the policy; when the run is exhausted inside the loop, the target
    is the one for uncategorized skills under General. *)
Lemma autoCategorize_loop_run (n : nat) : ∀ attempts tb ts s,
  (attempts + n = maxAttempts)%nat →
  (∀ j, (j < attempts)%nat → attempt j = None) →
  ∃ r tr,
    RetryRun attempt req r tr
    ∧ autoCategorize_loop (S n) env closure attempts tb ts s
        (failedAttempts req attempts)
      = Some (match r with
              | Some parsedJson =>
                  ((targetOfParsed parsedJson).1, (targetOfParsed parsedJson).2,
                   selectIfMissing (selectedOfParsed parsedJson) closure s)
              | None =>
                  if decide (n = 0%nat) then (tb, ts, s)
                  else ("Other_Auto_Uncategorized", "General",
                        selectIfMissing "Other" closure s)
              end, tr).
Proof.
  induction n as [|n IH]; intros attempts tb ts s Hn Hfail.
  - exists None, (failedAttempts req attempts). split.
    + assert (attempts = 5%nat) as -> by (unfold maxAttempts in Hn; lia).
      by apply RetryExhausted.
    + apply autoCategorize_loop_exit. lia.
  - assert (attempts < maxAttempts)%nat as Hlt by lia.
    assert (∀ j, (j < S attempts)%nat → attempt attempts = None → attempt j = None)
      as Hfail'.
    { intros j Hj E. destruct (decide (j = attempts)) as [->|]; [done|].
      apply Hfail. lia. }
    destruct (attempt attempts) as [parsedJson|] eqn:E.
    + exists (Some parsedJson), (failedAttempts req attempts ++ [EvFetch req]). split.
      * by apply RetrySucceeds.
      * by apply autoCategorize_loop_ok.
    + rewrite autoCategorize_loop_retry, <- failedAttempts_S by done.
      destruct (S attempts =? maxAttempts)%nat eqn:Elast.
      * apply Nat.eqb_eq in Elast.
        destruct (IH (S attempts) "Other_Auto_Uncategorized" "General"
                    (selectIfMissing "Other" closure s)) as (r & tr & Hrun & Heq);
          [lia | by auto |].
        exists r, tr. split; [done|]. rewrite Heq.
        destruct r; [|].
        -- inversion Hrun as [k out Hk Hbefore Hok|]; subst.
           assert (attempt k = None); [|congruence].
           apply Hfail'; [unfold maxAttempts in Elast; lia | done].
        -- assert (n = 0%nat) as -> by lia. done.
      * apply Nat.eqb_neq in Elast.
        destruct (IH (S attempts) tb ts s) as (r & tr & Hrun & Heq);
          [lia | by auto |].
        exists r, tr. split; [done|]. rewrite Heq.
        destruct r; [done|]. by destruct (decide (n = 0%nat)); [lia|].
Qed.

End AutoCategorizeLoop.

(** A run of the policy makes between one and five requests, waits
    1s, 2s, 4s, 8s in that order between them and never after the last
    one, and returns the output of the first attempt that succeeds. *)
Lemma RetryRun_shape {A : Type} (attempt : nat → option A) (req : Request)
    (r : option A) (tr : list Event) :
  RetryRun attempt req r tr →
  (1 ≤ fetchCount tr ≤ 5)%nat
  ∧ waits tr = take (fetchCount tr - 1) [1000; 2000; 4000; 8000]
  ∧ (∀ ms, last tr ≠ Some (EvWait ms))
  ∧ match r with
    | Some out =>
        attempt (fetchCount tr - 1)%nat = Some out
        ∧ (∀ j, (j < fetchCount tr - 1)%nat → attempt j = None)
        ∧ last tr = Some (EvFetch req)
    | None =>
        (∀ j, (j < 5)%nat → attempt j = None)
        ∧ fetchCount tr = 5%nat
        ∧ waits tr = [1000; 2000; 4000; 8000]
    end.
Proof.
  intros [k out Hk Hfail Hok | Hfail].
  - destruct k as [|[|[|[|[|k]]]]]; [..|lia];
      (split; [vm_compute; lia|]);
      (split; [vm_compute; reflexivity|]);
      (split; [intros ms; vm_compute; discriminate|]);
      (split; [exact Hok|]);
      (split; [exact Hfail | vm_compute; reflexivity]).
  - split; [vm_compute; lia|].
    split; [vm_compute; reflexivity|].
    split; [intros ms; vm_compute; discriminate|].
    split; [exact Hfail|]. split; vm_compute; reflexivity.
Qed.

(** ** The map written on save *)

Lemma cleanedSubCats_lookup (subCats : SubCategoryMap) (subCat : string) :
  cleanedSubCats subCats !! subCat
  = match subCats !! subCat with
    | Some skills => if bool_decide (0 < length skills)%nat then Some skills else None
    | None => None
    end.
Proof.
  unfold cleanedSubCats. revert subCat.
  apply (map_fold_weak_ind (λ (r m : SubCategoryMap), ∀ subCat,
    r !! subCat
    = match m !! subCat with
      | Some skills => if bool_decide (0 < length skills)%nat then Some skills else None
      | None => None
      end)).
  - intros subCat. by rewrite !lookup_empty.
  - intros i x m r Hi IH subCat.
    destruct (decide (i = subCat)) as [->|Hne].
    + rewrite lookup_insert_eq. case_bool_decide.
      * by rewrite lookup_insert_eq.
      * by rewrite IH, Hi.
    + rewrite lookup_insert_ne by done. case_bool_decide.
      * by rewrite lookup_insert_ne.
      * done.
Qed.

Lemma cleanedSkills_lookup (m : SkillMap) (broadCat : string) :
  cleanedSkills m !! broadCat
  = match m !! broadCat with
    | Some subCats =>
        if bool_decide (0 < size (cleanedSubCats subCats))%nat
        then Some (cleanedSubCats subCats) else None
    | None => None
    end.
Proof.
  unfold cleanedSkills. revert broadCat. revert m.
  apply (map_fold_weak_ind (λ (r m0 : SkillMap), ∀ broadCat,
    r !! broadCat
    = match m0 !! broadCat with
      | Some subCats =>
          if bool_decide (0 < size (cleanedSubCats subCats))%nat
          then Some (cleanedSubCats subCats) else None
      | None => None
      end)).
  - intros broadCat. by rewrite !lookup_empty.
  - intros i x m0 r Hi IH broadCat. cbv zeta.
    destruct (decide (i = broadCat)) as [->|Hne].
    + rewrite lookup_insert_eq. case_bool_decide.
      * by rewrite lookup_insert_eq.
      * by rewrite IH, Hi.
    + rewrite lookup_insert_ne by done. case_bool_decide.
      * by rewrite lookup_insert_ne.
      * done.
Qed.

Lemma length_pos_iff {A : Type} (l : list A) : (0 < length l)%nat ↔ l ≠ [].
Proof. destruct l; simpl; split; (done || lia). Qed.

(** C2: the map handed to [setDoc] on save has no sub-category whose skill
    sequence is empty and no broad category whose sub-category mapping is
    empty, and its non-empty skill sequences are exactly those of the
    state, unchanged. *)
Theorem C2_saved_map_is_pruned (m : SkillMap) :
  (∀ broadCat subCats,
     cleanedSkills m !! broadCat = Some subCats →
     subCats ≠ ∅
     ∧ ∀ subCat skills, subCats !! subCat = Some skills → skills ≠ [])
  ∧ (∀ broadCat subCat skills,
       skills ≠ [] →
       skillsAt (cleanedSkills m) broadCat subCat = Some skills
       ↔ skillsAt m broadCat subCat = Some skills).
Proof.
  split.
  - intros broadCat subCats. rewrite cleanedSkills_lookup.
    destruct (m !! broadCat) as [subCats0|]; [|done].
    case_bool_decide as Hsize; [|done]. intros [= <-]. split.
    + apply map_size_non_empty_iff. lia.
    + intros subCat skills. rewrite cleanedSubCats_lookup.
      destruct (subCats0 !! subCat) as [skills0|]; [|done].
      case_bool_decide as Hlen; [|done]. intros [= <-].
      by apply length_pos_iff.
  - intros broadCat subCat skills Hskills. unfold skillsAt.
    rewrite cleanedSkills_lookup.
    destruct (m !! broadCat) as [subCats0|]; [|done]. cbn.
    case_bool_decide as Hsize; cbn.
    + rewrite cleanedSubCats_lookup.
      destruct (subCats0 !! subCat) as [skills0|]; [|done].
      case_bool_decide as Hlen; [done|].
      split; [done|]. intros [= ->]. by apply length_pos_iff in Hskills.
    + split; [done|]. intros Hin. exfalso. apply Hsize.
      assert (cleanedSubCats subCats0 !! subCat = Some skills) as Hc.
      { rewrite cleanedSubCats_lookup, Hin.
        by rewrite bool_decide_eq_true_2 by by apply length_pos_iff. }
      assert (cleanedSubCats subCats0 ≠ ∅) as Hne.
      { intros Hemp. by rewrite Hemp, lookup_empty in Hc. }
      apply map_size_non_empty_iff in Hne. lia.
Qed.

(** ** Exhausted runs *)

Lemma RetryRun_exhausted {A : Type} (attempt : nat → option A) (req : Request)
    (r : option A) (tr : list Event) :
  (∀ j, (j < 5)%nat → attempt j = None) →
  RetryRun attempt req r tr → r = None ∧ tr = failedAttempts req 5.
Proof.
  intros Hfail [k out Hk _ Hok|_]; [|done].
  rewrite Hfail in Hok by done. discriminate.
Qed.

(** A run is determined by what the attempts give. *)
Lemma RetryRun_det {A : Type} (attempt : nat → option A) (req : Request)
    (r1 r2 : option A) (tr1 tr2 : list Event) :
  RetryRun attempt req r1 tr1 → RetryRun attempt req r2 tr2 →
  r1 = r2 ∧ tr1 = tr2.
Proof.
  intros [k1 out1 Hk1 Hb1 Hok1|Hf1] [k2 out2 Hk2 Hb2 Hok2|Hf2].
  - assert (k1 = k2) as ->.
    { destruct (lt_eq_lt_dec k1 k2) as [[Hlt|Heq]|Hgt]; [|done|].
      - rewrite (Hb2 _ Hlt) in Hok1. discriminate.
      - rewrite (Hb1 _ Hgt) in Hok2. discriminate. }
    split; [congruence | done].
  - rewrite Hf2 in Hok1 by done. discriminate.
  - rewrite Hf1 in Hok2 by done. discriminate.
  - done.
Qed.

(** C4, as the code has it: when all five attempts fail,
    [fetchSubCategories] and [fetchSpecificSkills] leave their suggestion
    list as it was before the run and only take the loading flag down; the
    list is empty afterwards exactly when it was empty before. *)
Theorem C4_exhausted_keeps_suggestions (env : Env)
    (Hfail : ∀ j, (j < 5)%nat → tryFetchList (fetch env j) = None) :
  (∀ category s, truthy category = true → category ≠ "Other" →
     ∃ s' tr,
       fetchSubCategories env category s = Some (s', tr)
       ∧ fetchCount tr = 5%nat
       ∧ s' = setLoadingSubCategories false s
       ∧ suggestedSubCategories s' = suggestedSubCategories s)
  ∧ (∀ broadCat subCat s,
       truthy broadCat = true → truthy subCat = true → broadCat ≠ "Other" →
       ∃ s' tr,
         fetchSpecificSkills env broadCat subCat s = Some (s', tr)
         ∧ fetchCount tr = 5%nat
         ∧ s' = setLoadingSpecificSkills false s
         ∧ suggestedSpecificSkills s' = suggestedSpecificSkills s).
Proof.
  split.
  - intros category s Ht Hne. unfold fetchSubCategories.
    rewrite Ht, (eqb_false_of_ne _ _ Hne). cbn [negb orb].
    destruct (fetchSubCategories_loop_run env category maxAttempts 0
                (setLoadingSubCategories true s)) as (r & tr & Hrun & Heq);
      [done | intros j Hj; lia |].
    destruct (RetryRun_exhausted _ _ _ _ Hfail Hrun) as [-> ->].
    change (failedAttempts (ReqSubCategories category) 0) with (@nil Event) in Heq.
    rewrite Heq. by eexists _, _.
  - intros broadCat subCat s Hb Hs Hne. unfold fetchSpecificSkills.
    rewrite Hb, Hs, (eqb_false_of_ne _ _ Hne). cbn [negb orb].
    destruct (fetchSpecificSkills_loop_run env broadCat subCat maxAttempts 0
                (setLoadingSpecificSkills true s)) as (r & tr & Hrun & Heq);
      [done | intros j Hj; lia |].
    destruct (RetryRun_exhausted _ _ _ _ Hfail Hrun) as [-> ->].
    change (failedAttempts (ReqSpecificSkills broadCat subCat) 0)
      with (@nil Event) in Heq.
    rewrite Heq. by eexists _, _.
Qed.

Lemma C4_exhausted_keeps_suggestions_witness :
  (∀ j, (j < 5)%nat → tryFetchList (fetch envDown j) = None)
  ∧ ∃ s' tr,
      fetchSubCategories envDown "Tech & Digital" staleSuggestions = Some (s', tr)
      ∧ fetchCount tr = 5%nat
      ∧ s' = setLoadingSubCategories false staleSuggestions
      ∧ suggestedSubCategories s' = suggestedSubCategories staleSuggestions.
Proof.
  split; [intros j Hj; reflexivity|].
  apply (C4_exhausted_keeps_suggestions envDown).
  - intros j Hj. reflexivity.
  - reflexivity.
  - discriminate.
Defined.

(** C4, as stated, fails: with suggestions of an earlier category on
    display and every request rejected, both operations make their five
    attempts and the lists are still the earlier ones, not empty. *)
Lemma C4_stale_suggestions_counterexample :
  (∀ j, tryFetchList (fetch envDown j) = None)
  ∧ (∃ s' tr,
       fetchSubCategories envDown "Tech & Digital" staleSuggestions = Some (s', tr)
       ∧ fetchCount tr = 5%nat
       ∧ suggestedSubCategories s' = ["Graphic Design"; "Illustration"]
       ∧ suggestedSubCategories s' ≠ [])
  ∧ (∃ s' tr,
       fetchSpecificSkills envDown "Tech & Digital" "Web" staleSuggestions
       = Some (s', tr)
       ∧ fetchCount tr = 5%nat
       ∧ suggestedSpecificSkills s' = ["Logo Design"]
       ∧ suggestedSpecificSkills s' ≠ []).
Proof.
  split; [reflexivity|].
  split; (eexists _, _; split; [vm_compute; reflexivity|]);
    (split; [reflexivity|]); (split; [reflexivity | discriminate]).
Qed.

(** The spec's retry scenario: four failures, then a success on the fifth
    attempt; the list is the fifth attempt's parsed output and the waits
    are 1s, 2s, 4s, 8s. *)
Example retry_succeeds_on_fifth_attempt :
  ∃ s' tr,
    fetchSpecificSkills envFifth "Creative & Design" "Music Production" initialState
    = Some (s', tr)
    ∧ suggestedSpecificSkills s' = ["Mixing"; "Mastering"; "Sound Design"]
    ∧ fetchCount tr = 5%nat
    ∧ waits tr = [1000; 2000; 4000; 8000].
Proof.
  eexists _, _. split; [vm_compute; reflexivity|]. by repeat split.
Qed.

(** ** Resolution of the target in [handleAddSkill] *)

Lemma sameInputs_refl (s : AppState) : sameInputs s s.
Proof. by repeat split. Qed.

Lemma selectIfMissing_inputs (cat : string) (closure s : AppState) :
  sameInputs s (selectIfMissing cat closure s)
  ∧ skillsByCategory (selectIfMissing cat closure s) = skillsByCategory s.
Proof.
  unfold selectIfMissing.
  by destruct (negb (arrayIncludes cat (selectedBroadCategories closure))).
Qed.


(** The first step keeps the inputs and the store, and its targets depend
    on the inputs only. *)
Lemma customTarget_inputs (c : AppState) (tb0 ts0 : string) (s0 : AppState) :
  customTarget c = (tb0, ts0, s0) →
  sameInputs c s0
  ∧ skillsByCategory s0 = skillsByCategory c
  ∧ ∀ c2, sameInputs c c2 → ∃ s02, customTarget c2 = (tb0, ts0, s02).
Proof.
  unfold customTarget. intros Hc. split; [|split].
  - destruct (_ && _); injection Hc as <- <- <-;
      [apply selectIfMissing_inputs | apply sameInputs_refl].
  - destruct (_ && _); injection Hc as <- <- <-;
      [apply selectIfMissing_inputs | done].
  - intros c2 (_ & _ & <- & <- & <- & _).
    destruct (_ && _); injection Hc as <- <- <-; by eexists.
Qed.

Lemma needsAutoCategorization_inputs (c c2 : AppState) (tb ts : string) :
  sameInputs c c2 →
  needsAutoCategorization c2 tb ts = needsAutoCategorization c tb ts.
Proof.
  intros (Hin & _ & _ & _ & _ & Hl). unfold needsAutoCategorization.
  by rewrite Hin, Hl.
Qed.

Lemma resolveTarget_manual (env : Env) (c : AppState) tb0 ts0 s0 :
  customTarget c = (tb0, ts0, s0) →
  needsAutoCategorization c tb0 ts0 = false →
  resolveTarget env c = Some (tb0, ts0, s0, []).
Proof. intros Hc Hn. unfold resolveTarget. by rewrite Hc, Hn. Qed.

Lemma resolveTarget_auto (env : Env) (c : AppState) tb0 ts0 s0 :
  customTarget c = (tb0, ts0, s0) →
  needsAutoCategorization c tb0 ts0 = true →
  ∃ r tr,
    RetryRun (λ j, tryAutoCategorize env (fetch env j))
      (ReqAutoCategorize (trim (newSkillInput c))) r tr
    ∧ resolveTarget env c
      = Some ((autoTarget r).1, (autoTarget r).2,
              setLoadingAutoCategorization false
                (selectIfMissing (autoSelected r) c
                   (setLoadingAutoCategorization true s0)), tr).
Proof.
  intros Hc Hn. unfold resolveTarget. rewrite Hc, Hn.
  destruct (autoCategorize_loop_run env c maxAttempts 0 tb0 ts0
              (setLoadingAutoCategorization true s0)) as (r & tr & Hrun & Heq);
    [done | intros j Hj; lia |].
  exists r, tr. split; [done|].
  change (failedAttempts (ReqAutoCategorize (trim (newSkillInput c))) 0)
    with (@nil Event) in Heq.
  rewrite Heq. by destruct r.
Qed.

(** [resolveTarget] always returns; the state it returns holds the same
    inputs and the same store; and from any state with the same inputs it
    returns the same target and makes the same requests. *)
Lemma resolveTarget_spec (env : Env) (c : AppState) :
  ∃ tb ts st tr,
    resolveTarget env c = Some (tb, ts, st, tr)
    ∧ sameInputs c st
    ∧ skillsByCategory st = skillsByCategory c
    ∧ ∀ c2, sameInputs c c2 →
        ∃ st2, resolveTarget env c2 = Some (tb, ts, st2, tr)
               ∧ skillsByCategory st2 = skillsByCategory c2.
Proof.
  destruct (customTarget c) as [[tb0 ts0] s0] eqn:Hc.
  destruct (customTarget_inputs _ _ _ _ Hc) as (Hin0 & Hsk0 & Hdep).
  destruct (needsAutoCategorization c tb0 ts0) eqn:Hn.
  - destruct (resolveTarget_auto env c _ _ _ Hc Hn) as (r & tr & Hrun & Heq).
    eexists _, _, _, tr. split; [exact Heq|]. split; [|split].
    + unfold needsAutoCategorization in Hn.
      apply andb_prop in Hn as [_ Hl]. apply negb_true_iff in Hl.
      destruct Hin0 as (?&?&?&?&?&?).
      destruct (selectIfMissing_inputs (autoSelected r) c
                  (setLoadingAutoCategorization true s0)) as [(?&?&?&?&?&?) _].
      repeat split; cbn in *; congruence.
    + cbn. destruct (selectIfMissing_inputs (autoSelected r) c
                  (setLoadingAutoCategorization true s0)) as [_ ->]. done.
    + intros c2 Hin2. destruct (Hdep c2 Hin2) as [s02 Hc2].
      destruct (customTarget_inputs _ _ _ _ Hc2) as (_ & Hsk02 & _).
      pose proof (needsAutoCategorization_inputs c c2 tb0 ts0 Hin2) as Hn2.
      rewrite Hn in Hn2.
      destruct (resolveTarget_auto env c2 _ _ _ Hc2 Hn2) as (r2 & tr2 & Hrun2 & Heq2).
      destruct Hin2 as (Hin2 & _). rewrite <- Hin2 in Hrun2.
      destruct (RetryRun_det _ _ _ _ _ _ Hrun Hrun2) as [<- <-].
      eexists. split; [exact Heq2|]. cbn.
      destruct (selectIfMissing_inputs (autoSelected r) c2
                  (setLoadingAutoCategorization true s02)) as [_ ->]. done.
  - exists tb0, ts0, s0, []. split; [by apply resolveTarget_manual|].
    split; [done|]. split; [done|].
    intros c2 Hin2. destruct (Hdep c2 Hin2) as [s02 Hc2].
    destruct (customTarget_inputs _ _ _ _ Hc2) as (_ & Hsk02 & _).
    exists s02. split; [|done]. apply resolveTarget_manual; [done|].
    by rewrite (needsAutoCategorization_inputs c c2).
Qed.

Lemma fetchCount_app (tr1 tr2 : list Event) :
  fetchCount (tr1 ++ tr2) = (fetchCount tr1 + fetchCount tr2)%nat.
Proof. unfold fetchCount. by rewrite List.filter_app, length_app. Qed.




(** ** The three operations run the policy *)

Lemma fetchSubCategories_retry (env : Env) (category : string) (s : AppState) :
  truthy category = true → category ≠ "Other" →
  ∃ r tr,
    RetryRun (λ j, tryFetchList (fetch env j)) (ReqSubCategories category) r tr
    ∧ fetchSubCategories env category s
      = Some (setLoadingSubCategories false
                match r with
                | Some parsed =>
                    setSuggestedSubCategories parsed (setLoadingSubCategories true s)
                | None => setLoadingSubCategories true s
                end, tr).
Proof.
  intros Ht Hne. unfold fetchSubCategories.
  rewrite Ht, (eqb_false_of_ne _ _ Hne). cbn [negb orb].
  destruct (fetchSubCategories_loop_run env category maxAttempts 0
              (setLoadingSubCategories true s)) as (r & tr & Hrun & Heq);
    [done | intros j Hj; lia |].
  exists r, tr. split; [done|].
  change (failedAttempts (ReqSubCategories category) 0) with (@nil Event) in Heq.
  rewrite Heq. by destruct r.
Qed.

Lemma fetchSpecificSkills_retry (env : Env) (broadCat subCat : string) (s : AppState) :
  truthy broadCat = true → truthy subCat = true → broadCat ≠ "Other" →
  ∃ r tr,
    RetryRun (λ j, tryFetchList (fetch env j)) (ReqSpecificSkills broadCat subCat) r tr
    ∧ fetchSpecificSkills env broadCat subCat s
      = Some (setLoadingSpecificSkills false
                match r with
                | Some parsed =>
                    setSuggestedSpecificSkills parsed (setLoadingSpecificSkills true s)
                | None => setLoadingSpecificSkills true s
                end, tr).
Proof.
  intros Hb Hs Hne. unfold fetchSpecificSkills.
  rewrite Hb, Hs, (eqb_false_of_ne _ _ Hne). cbn [negb orb].
  destruct (fetchSpecificSkills_loop_run env broadCat subCat maxAttempts 0
              (setLoadingSpecificSkills true s)) as (r & tr & Hrun & Heq);
    [done | intros j Hj; lia |].
  exists r, tr. split; [done|].
  change (failedAttempts (ReqSpecificSkills broadCat subCat) 0)
    with (@nil Event) in Heq.
  rewrite Heq. by destruct r.
Qed.





(** ** Adding a skill *)

Lemma skillsAt_appendSkill_eq (b sc skill : string) (m : SkillMap) :
  skillsAt (appendSkill b sc skill m) b sc
  = Some (default [] (skillsAt m b sc) ++ [skill]).
Proof.
  unfold skillsAt, appendSkill. rewrite lookup_insert_eq. cbn.
  by rewrite lookup_insert_eq.
Qed.

Lemma skillsAt_appendSkill_ne (b sc skill b' sc' : string) (m : SkillMap) :
  (b', sc') ≠ (b, sc) →
  skillsAt (appendSkill b sc skill m) b' sc' = skillsAt m b' sc'.
Proof.
  intros Hne. unfold skillsAt, appendSkill.
  destruct (decide (b = b')) as [<-|Hb].
  - rewrite lookup_insert_eq. cbn.
    rewrite lookup_insert_ne by congruence.
    by destruct (m !! b).
  - by rewrite lookup_insert_ne.
Qed.

Lemma includes_stored (skill : string) (o : option (list string)) :
  from_option (arrayIncludes skill) false o = bool_decide (skill ∈ default [] o).
Proof.
  destruct o as [l|]; cbn; [done|].
  symmetry. apply bool_decide_eq_false. apply not_elem_of_nil.
Qed.

(** The last part of [handleAddSkill], once the target is resolved to a
    broad category that is not empty. *)
Lemma handleAddSkill_resolved (env : Env) (c : AppState) tb ts st tr :
  skillToAdd c ≠ "" →
  resolveTarget env c = Some (tb, ts, st, tr) →
  tb ≠ "" →
  handleAddSkill env c
  = if bool_decide
         (skillToAdd c ∈ default [] (skillsAt (skillsByCategory c) tb (orGeneral ts)))
    then Some (setSelectedSuggestedSkill "" (setNewSkillInput "" st),
               tr ++ [EvWarnDuplicate (skillToAdd c) (formatCategoryForDisplay tb)
                        (orGeneral ts)])
    else Some (setSelectedSuggestedSkill ""
                 (setNewSkillInput ""
                    (setSkillsByCategory
                       (appendSkill tb (orGeneral ts) (skillToAdd c)
                          (skillsByCategory st)) st)), tr).
Proof.
  intros Hskill Hres Htb. unfold handleAddSkill.
  rewrite (eqb_false_of_ne _ _ Hskill), Hres.
  apply truthy_true in Htb. rewrite Htb. cbn [negb]. cbv zeta.
  fold (orGeneral ts). by rewrite includes_stored.
Qed.






(** The spec's scenario: Songwriting added under Creative & Design, Music
    Production, to an empty store. *)
Example add_to_empty_store :
  ∃ s' tr,
    handleAddSkill envDown typedSongwriting = Some (s', tr)
    ∧ tr = []
    ∧ cleanedSkills (skillsByCategory s')
      = {[ "Creative & Design" := {[ "Music Production" := ["Songwriting"] ]} ]}.
Proof.
  eexists _, _. split; [vm_compute; reflexivity|].
  split; compute_done.
Qed.








(** Whenever the auto-categorization of [handleAddSkill] runs and all five
    attempts fail, the target is the key for uncategorized skills and
    sub-category General. *)
Lemma resolveTarget_exhausted (env : Env) (c : AppState) tb0 ts0 s0 :
  customTarget c = (tb0, ts0, s0) →
  needsAutoCategorization c tb0 ts0 = true →
  (∀ j, (j < 5)%nat → tryAutoCategorize env (fetch env j) = None) →
  ∃ st tr,
    resolveTarget env c = Some ("Other_Auto_Uncategorized", "General", st, tr)
    ∧ fetchCount tr = 5%nat.
Proof.
  intros Hc Hn Hfail.
  destruct (resolveTarget_auto env c _ _ _ Hc Hn) as (r & tr & Hrun & Heq).
  destruct (RetryRun_exhausted _ _ _ _ Hfail Hrun) as [-> ->].
  eexists _, _. split; [exact Heq | reflexivity].
Qed.

(** ** Removing a skill *)


Lemma not_elem_of_filter_ne (skill : string) (skills : list string) :
  skill ∉ filter (λ y, y ≠ skill) skills.
Proof. rewrite list_elem_of_filter. by intros [? _]. Qed.




(** What [handleRemoveSkill] does to the selection. When the broad
    category loses its entry: for a key in the custom or auto name space,
    the key and Other are taken out, whatever else the store holds; for a
    standard category, that category is taken out. Otherwise the selection
    is as before. *)
Lemma handleRemoveSkill_selection (broadCat subCat skill : string) (s s' : AppState) :
  handleRemoveSkill broadCat subCat skill s = Some s' →
  (skillsByCategory s' !! broadCat = None →
   (isNamespaced broadCat = true →
    selectedBroadCategories s'
    = filter (λ c, c ≠ broadCat ∧ c ≠ "Other") (selectedBroadCategories s))
   ∧ (isNamespaced broadCat = false → broadCat ∈ broadCategories →
      selectedBroadCategories s'
      = filter (λ c, c ≠ broadCat) (selectedBroadCategories s)))
  ∧ (is_Some (skillsByCategory s' !! broadCat) →
     selectedBroadCategories s' = selectedBroadCategories s).
Proof.
  unfold handleRemoveSkill, isNamespaced.
  destruct (default ∅ (skillsByCategory s !! broadCat) !! subCat) as [skills|];
    [|done]. cbv zeta.
  destruct (bool_decide (size _ = 0%nat)); intros [= <-].
  - split.
    + intros _. destruct (_ || _); (split; [|]); try done.
      intros _ Hstd%arrayIncludes_true. by rewrite Hstd.
    + destruct (_ || _); [|destruct (arrayIncludes _ _)]; cbn;
        rewrite lookup_delete_eq; by intros [? ?].
  - split; [|done]. cbn. by rewrite lookup_insert_eq.
Qed.

(** C7, evaluated where the code departs from it: with skills under two
    custom categories, removing the only skill of one of them empties that
    category; the other custom category still has its skill, and yet Other
    is no longer among the selected broad categories. The state is one the
    handlers reach from the initial state. *)
Theorem C7_Other_deselected_while_custom_category_remains :
  (∃ s0, enterTwoCustomCategories = Some s0
         ∧ skillsByCategory s0 = skillsByCategory twoCustomCategories
         ∧ selectedBroadCategories s0 = selectedBroadCategories twoCustomCategories)
  ∧ ∃ s',
      handleRemoveSkill "Other_Custom_Falconry" "General" "Hawk training"
        twoCustomCategories = Some s'
      ∧ skillsByCategory s'
        = {[ "Other_Custom_Beekeeping" := {[ "General" := ["Queen rearing"] ]} ]}
      ∧ selectedBroadCategories s' = ["Other_Custom_Beekeeping"]
      ∧ "Other" ∉ selectedBroadCategories s'.
Proof.
  split.
  - eexists. split; [vm_compute; reflexivity|]. split; compute_done.
  - eexists. split; [vm_compute; reflexivity|]. repeat split; compute_done.
Qed.

(** ** Unchecking a broad category *)

Lemma append_String (a : ascii) (s1 s2 : string) :
  String a s1 +:+ s2 = String a (s1 +:+ s2).
Proof. reflexivity. Qed.

Lemma startsWith_append (p s : string) : startsWith p (p +:+ s) = true.
Proof.
  induction p as [|a p IH]; [done|].
  rewrite append_String. cbn [startsWith]. by rewrite Ascii.eqb_refl, IH.
Qed.

Lemma includes_here (p s : string) : startsWith p s = true → includes p s = true.
Proof. intros H. destruct s; cbn [includes]; by rewrite H. Qed.

Lemma includes_append (a p s : string) : includes p (a +:+ p +:+ s) = true.
Proof.
  induction a as [|c a IH].
  - change ("" +:+ p +:+ s) with (p +:+ s).
    apply includes_here, startsWith_append.
  - rewrite append_String. cbn [includes]. rewrite IH. apply orb_true_r.
Qed.

Lemma append_assoc (s1 s2 s3 : string) : (s1 +:+ s2) +:+ s3 = s1 +:+ s2 +:+ s3.
Proof.
  induction s1 as [|a s1 IH]; [done|]. rewrite !append_String. by rewrite IH.
Qed.

Lemma append_empty_r (s : string) : s +:+ "" = s.
Proof. induction s as [|a s IH]; [done|]. rewrite append_String. by rewrite IH. Qed.

(** A key with the qualifier at its end is in its name space and includes
    the qualifier. *)
Lemma qualified_key (prefix name value : string) :
  startsWith prefix (prefix +:+ name +:+ "__" +:+ value) = true
  ∧ includes ("__" +:+ value) (prefix +:+ name +:+ "__" +:+ value) = true.
Proof.
  split; [apply startsWith_append|].
  rewrite <- (append_empty_r ("__" +:+ value)) at 2.
  rewrite <- (append_assoc prefix name).
  apply includes_append.
Qed.

Lemma keys_lookup {V : Type} (o : gmap string V) (key : string) :
  key ∉ keys o → o !! key = None.
Proof.
  intros Hnot. destruct (o !! key) as [v|] eqn:Hv; [|done].
  exfalso. apply Hnot. unfold keys.
  apply (list_elem_of_fmap_2' fst _ (key, v)); [|done].
  by apply elem_of_map_to_list.
Qed.

(** The loop over the keys deletes the listed keys in a name space that
    include the qualifier, and no other. *)
Lemma clear_loop_lookup (value : string) (l : list string) : ∀ (m : SkillMap) key,
  foldl (λ (newState : SkillMap) key,
           let newState :=
             if startsWith "Other_Custom_" key && includes ("__" +:+ value) key
             then delete key newState else newState in
           if startsWith "Other_Auto_" key && includes ("__" +:+ value) key
           then delete key newState else newState) m l !! key
  = if bool_decide (key ∈ l) && (isNamespaced key && includes ("__" +:+ value) key)
    then None else m !! key.
Proof.
  induction l as [|k l IH]; intros m key.
  - cbn [foldl]. rewrite bool_decide_eq_false_2 by apply not_elem_of_nil. done.
  - cbn [foldl]. rewrite IH. cbv zeta. unfold isNamespaced.
    destruct (decide (key = k)) as [->|Hne].
    + rewrite (bool_decide_eq_true_2 (k ∈ k :: l)) by apply list_elem_of_here.
      destruct (startsWith "Other_Custom_" k), (startsWith "Other_Auto_" k),
        (includes ("__" +:+ value) k), (bool_decide (k ∈ l));
        cbn; rewrite ?lookup_delete_eq; done.
    + assert (bool_decide (key ∈ k :: l) = bool_decide (key ∈ l)) as ->.
      { apply bool_decide_ext. rewrite elem_of_cons. split; [|by right].
        by intros [?|?]. }
      destruct (bool_decide (key ∈ l) && _); [done|].
      destruct (startsWith "Other_Custom_" k && _),
        (startsWith "Other_Auto_" k && _);
        by rewrite ?lookup_delete_ne by done.
Qed.

Lemma clearBroadCategory_lookup (value key : string) (prev : SkillMap) :
  clearBroadCategory value prev !! key
  = if bool_decide (key = value) || (isNamespaced key && includes ("__" +:+ value) key)
    then None else prev !! key.
Proof.
  unfold clearBroadCategory. cbv zeta. rewrite clear_loop_lookup.
  destruct (isNamespaced key && includes ("__" +:+ value) key).
  - rewrite orb_true_r, andb_true_r. case_bool_decide as Hin; [done|].
    by apply keys_lookup.
  - rewrite orb_false_r, andb_false_r. case_bool_decide as Heq.
    + subst. apply lookup_delete_eq.
    + by apply lookup_delete_ne.
Qed.

Lemma handleBroadCategoryChange_unchecked (value : string) (s : AppState) :
  skillsByCategory (handleBroadCategoryChange value false s)
  = clearBroadCategory value (skillsByCategory s).
Proof.
  unfold handleBroadCategoryChange. cbn [negb]. cbv zeta.
  destruct (arrayIncludes value broadCategories || String.eqb value "Other"),
    (String.eqb (activeBroadCategory s) value); reflexivity.
Qed.

(** C8: unchecking a broad category removes its own entry from the store
    and every entry whose key is in the custom or the auto name space and
    includes the category as a qualifier (two underscores, then the
    category), in particular every such key that ends with the qualifier;
    a key that is neither is kept. In the spec's scenario, unchecking
    Creative & Design removes its entry and the entry of the custom key
    qualified by it, and leaves the third entry. *)
Theorem C8_uncheck_removes_category_and_qualified_keys (value : string) (s : AppState) :
  let m := skillsByCategory s in
  let m' := skillsByCategory (handleBroadCategoryChange value false s) in
  m' !! value = None
  ∧ (∀ key, isNamespaced key = true → includes ("__" +:+ value) key = true →
       m' !! key = None)
  ∧ (∀ name,
       m' !! ("Other_Custom_" +:+ name +:+ "__" +:+ value) = None
       ∧ m' !! ("Other_Auto_" +:+ name +:+ "__" +:+ value) = None)
  ∧ (∀ key, key ≠ value →
       isNamespaced key && includes ("__" +:+ value) key = false →
       m' !! key = m !! key)
  ∧ ((value ∉ selectedBroadCategories (handleBroadCategoryChange value false s))
     ∨ ((value ∉ broadCategories) ∧ value ≠ "Other"))
  ∧ skillsByCategory
      (handleBroadCategoryChange "Creative & Design" false qualifiedCustomCategory)
    = {[ "Tech & Digital" := {[ "Web" := ["CSS"] ]} ]}.
Proof.
  intros m m'. unfold m', m. rewrite handleBroadCategoryChange_unchecked.
  split; [|split; [|split; [|split; [|split]]]].
  - rewrite clearBroadCategory_lookup. by rewrite bool_decide_eq_true_2.
  - intros key Hns Hinc. rewrite clearBroadCategory_lookup, Hns, Hinc.
    by rewrite orb_true_r.
  - intros name. rewrite !clearBroadCategory_lookup. unfold isNamespaced.
    destruct (qualified_key "Other_Custom_" name value) as [-> ->].
    destruct (qualified_key "Other_Auto_" name value) as [-> ->].
    by rewrite !orb_true_r.
  - intros key Hne Hq. rewrite clearBroadCategory_lookup, Hq.
    by rewrite bool_decide_eq_false_2.
  - unfold handleBroadCategoryChange. cbn [negb]. cbv zeta.
    destruct (arrayIncludes value broadCategories || String.eqb value "Other")
      eqn:Hbox.
    + left. destruct (String.eqb (activeBroadCategory s) value); cbn;
        rewrite list_elem_of_filter; by intros [? _].
    + right. apply orb_false_elim in Hbox as [Hstd Hoth].
      split; [by apply arrayIncludes_false | by apply String.eqb_neq].
  - compute_done.
Qed.

(** * Further properties of the component *)

(** ** Loading the saved document *)

Lemma setAdd_elem (x y : string) (set : list string) :
  y ∈ setAdd x set ↔ y = x ∨ y ∈ set.
Proof.
  unfold setAdd. destruct (arrayIncludes x set) eqn:Hin.
  - apply arrayIncludes_true in Hin. split; [by right|]. by intros [->|?].
  - rewrite elem_of_app, list_elem_of_singleton. tauto.
Qed.

Lemma setAdd_NoDup (x : string) (set : list string) :
  NoDup set → NoDup (setAdd x set).
Proof.
  intros Hnd. unfold setAdd. destruct (arrayIncludes x set) eqn:Hin; [done|].
  apply arrayIncludes_false in Hin. apply NoDup_app. split; [done|].
  split; [|apply NoDup_singleton].
  intros y Hy ->%list_elem_of_singleton. done.
Qed.

Lemma setAdd_prefix (x : string) (set : list string) : set `prefix_of` setAdd x set.
Proof.
  unfold setAdd. destruct (arrayIncludes x set); [done|]. by apply prefix_app_r.
Qed.

Lemma setFromArray_acc (array : list string) : ∀ acc,
  NoDup acc →
  let set := foldl (λ set x, setAdd x set) acc array in
  NoDup set ∧ acc `prefix_of` set ∧ ∀ x, x ∈ set ↔ x ∈ acc ∨ x ∈ array.
Proof.
  induction array as [|a array IH]; intros acc Hnd; cbn.
  - split; [done|]. split; [done|]. intros x. rewrite elem_of_nil. tauto.
  - destruct (IH (setAdd a acc) (setAdd_NoDup a acc Hnd)) as (Hnd' & Hpre & Hin).
    split; [done|]. split; [by etrans; [apply setAdd_prefix|]|].
    intros x. rewrite Hin, setAdd_elem, elem_of_cons. tauto.
Qed.

Lemma setFromArray_NoDup_id (array : list string) : ∀ acc,
  NoDup (acc ++ array) → foldl (λ set x, setAdd x set) acc array = acc ++ array.
Proof.
  induction array as [|a array IH]; intros acc Hnd; cbn.
  - by rewrite app_nil_r.
  - assert (setAdd a acc = acc ++ [a]) as ->.
    { unfold setAdd. rewrite (proj2 (arrayIncludes_false a acc)); [done|].
      apply NoDup_app in Hnd as (_ & Hnot & _). intros Hin.
      apply (Hnot a Hin). apply list_elem_of_here. }
    rewrite IH; by rewrite <- app_assoc.
Qed.

Lemma standard_not_namespaced (x : string) :
  x ∈ broadCategories → isNamespaced x = false.
Proof.
  unfold broadCategories. rewrite !elem_of_cons, elem_of_nil.
  intros [->|[->|[->|[->|[->|[->|[->|[]]]]]]]]; reflexivity.
Qed.

Lemma keys_elem {V : Type} (o : gmap string V) (key : string) :
  key ∈ keys o ↔ is_Some (o !! key).
Proof.
  split.
  - unfold keys. intros ([k v] & -> & Hin)%list_elem_of_fmap.
    apply elem_of_map_to_list in Hin. by exists v.
  - intros [v Hv]. destruct (decide (key ∈ keys o)) as [|Hnot]; [done|].
    apply keys_lookup in Hnot. congruence.
Qed.

Lemma loadedBroadCategories_acc (closure : AppState) (keyList : list string) : ∀ acc,
  NoDup acc →
  let loaded :=
    foldl (λ loadedBroadCategories broadCatKey,
             if arrayIncludes broadCatKey broadCategories then
               setAdd broadCatKey loadedBroadCategories
             else if startsWith "Other_Custom_" broadCatKey
                     || startsWith "Other_Auto_" broadCatKey then
               let loadedBroadCategories := setAdd "Other" loadedBroadCategories in
               if negb (arrayIncludes broadCatKey (selectedBroadCategories closure))
               then setAdd broadCatKey loadedBroadCategories
               else loadedBroadCategories
             else loadedBroadCategories)
          acc keyList in
  NoDup loaded
  ∧ ∀ x, x ∈ loaded ↔
      x ∈ acc
      ∨ (x ∈ broadCategories ∧ x ∈ keyList)
      ∨ (x = "Other" ∧ ∃ k, k ∈ keyList ∧ isNamespaced k = true)
      ∨ (isNamespaced x = true ∧ x ∈ keyList ∧ x ∉ selectedBroadCategories closure).
Proof.
  match goal with |- context [foldl ?f _ _] => set (step := f) end.
  induction keyList as [|k keyList IH]; intros acc Hnd; cbn [foldl].
  - split; [done|]. intros x. split; [by left|].
    intros [?|[[_ []%elem_of_nil]|[[_ (k & []%elem_of_nil & _)]|(_ & []%elem_of_nil & _)]]].
    done.
  - assert (∀ acc', NoDup acc' →
              (∀ x, x ∈ acc' ↔
                 x ∈ acc
                 ∨ (x ∈ broadCategories ∧ x = k)
                 ∨ (x = "Other" ∧ isNamespaced k = true)
                 ∨ (isNamespaced x = true ∧ x = k
                    ∧ x ∉ selectedBroadCategories closure)) →
              NoDup (foldl step acc' keyList)
              ∧ ∀ x, x ∈ foldl step acc' keyList ↔
                  x ∈ acc
                  ∨ (x ∈ broadCategories ∧ x ∈ k :: keyList)
                  ∨ (x = "Other" ∧ ∃ k', k' ∈ k :: keyList ∧ isNamespaced k' = true)
                  ∨ (isNamespaced x = true ∧ x ∈ k :: keyList
                     ∧ x ∉ selectedBroadCategories closure)) as Hstep.
    { intros acc' Hnd' Hacc'. destruct (IH acc' Hnd') as (Hnd'' & Hin).
      split; [done|]. intros x. rewrite Hin, Hacc', elem_of_cons.
      assert ((∃ k', k' ∈ k :: keyList ∧ isNamespaced k' = true)
              ↔ isNamespaced k = true ∨ ∃ k', k' ∈ keyList ∧ isNamespaced k' = true)
        as ->; [|tauto].
      split.
      - intros (k' & [->|?]%elem_of_cons & ?); [by left | right; by exists k'].
      - intros [?|(k' & ? & ?)]; [exists k | exists k']; rewrite elem_of_cons; tauto. }
    cbv zeta.
    assert (NoDup (step acc k)
            ∧ ∀ x, x ∈ step acc k ↔
                x ∈ acc
                ∨ (x ∈ broadCategories ∧ x = k)
                ∨ (x = "Other" ∧ isNamespaced k = true)
                ∨ (isNamespaced x = true ∧ x = k
                   ∧ x ∉ selectedBroadCategories closure)) as [Hnd1 Hacc1];
      [|by apply Hstep].
    clear IH Hstep. unfold step. fold (isNamespaced k).
    destruct (arrayIncludes k broadCategories) eqn:Hstd.
    + apply arrayIncludes_true in Hstd.
      pose proof (standard_not_namespaced k Hstd) as Hns.
      split; [by apply setAdd_NoDup|].
      intros x. rewrite setAdd_elem, Hns. split.
      * intros [->|?]; tauto.
      * intros [?|[[_ ?]|[[_ [=]]|(Hx & -> & _)]]]; [tauto|tauto|congruence].
    + apply arrayIncludes_false in Hstd.
      destruct (isNamespaced k) eqn:Hns.
      * destruct (arrayIncludes k (selectedBroadCategories closure)) eqn:Hsel;
          cbn [negb].
        -- apply arrayIncludes_true in Hsel.
           split; [by apply setAdd_NoDup|].
           intros x. rewrite setAdd_elem. split; [tauto|].
           intros [?|[[? ->]|[[? _]|(_ & -> & ?)]]]; tauto.
        -- apply arrayIncludes_false in Hsel.
           split; [by apply setAdd_NoDup, setAdd_NoDup|].
           intros x. rewrite !setAdd_elem. split.
           ++ intros [->|[->|?]]; tauto.
           ++ intros [?|[[? ->]|[[? _]|(_ & -> & ?)]]]; tauto.
      * split; [done|]. intros x. split; [tauto|].
        intros [?|[[? ->]|[[_ [=]]|(Hx & -> & _)]]]; [done|done|congruence].
Qed.

Lemma loadedBroadCategories_spec (closure : AppState) (keyList : list string) :
  NoDup (loadedBroadCategories closure keyList)
  ∧ ∀ x, x ∈ loadedBroadCategories closure keyList ↔
      (x ∈ broadCategories ∧ x ∈ keyList)
      ∨ (x = "Other" ∧ ∃ k, k ∈ keyList ∧ isNamespaced k = true)
      ∨ (isNamespaced x = true ∧ x ∈ keyList ∧ x ∉ selectedBroadCategories closure).
Proof.
  pose proof (loadedBroadCategories_acc closure keyList [] (NoDup_nil_2)) as H.
  cbv zeta in H. destruct H as [Hnd Hin]. split; [exact Hnd|].
  intros x. unfold loadedBroadCategories. rewrite (Hin x), elem_of_nil. tauto.
Qed.

Lemma setFromArray_spec (array : list string) :
  NoDup (setFromArray array) ∧ ∀ x, x ∈ setFromArray array ↔ x ∈ array.
Proof.
  pose proof (setFromArray_acc array [] (NoDup_nil_2)) as H.
  cbv zeta in H. destruct H as (Hnd & _ & Hin). split; [exact Hnd|].
  intros x. unfold setFromArray. rewrite (Hin x), elem_of_nil. tauto.
Qed.

Lemma setFromArray_prefix (old new : list string) :
  NoDup old → old `prefix_of` setFromArray (old ++ new).
Proof.
  intros Hold. unfold setFromArray. rewrite foldl_app.
  rewrite (setFromArray_NoDup_id old []) by done. cbn.
  pose proof (setFromArray_acc new old Hold) as H. cbv zeta in H. tauto.
Qed.

(** X1: loading a document with a [skills] field replaces the store by the
    loaded map as it is, and the selected broad categories become the old
    selection followed by what the loaded keys add, without repetition: a
    category is selected afterwards exactly when it was selected before,
    or is a standard category with an entry, or is Other and some loaded
    key is in the custom or auto name space, or is such a key that the
    selection the effect was created with did not hold. A loaded key of
    neither kind selects nothing. *)
Theorem X1_loadSkills_selection (m : SkillMap) (closure s : AppState) :
  let s' := loadSkills (DocData (Some m)) closure s in
  skillsByCategory s' = m
  ∧ NoDup (selectedBroadCategories s')
  ∧ (NoDup (selectedBroadCategories s) →
     selectedBroadCategories s `prefix_of` selectedBroadCategories s')
  ∧ ∀ x, x ∈ selectedBroadCategories s' ↔
      x ∈ selectedBroadCategories s
      ∨ (x ∈ broadCategories ∧ is_Some (m !! x))
      ∨ (x = "Other" ∧ ∃ k, is_Some (m !! k) ∧ isNamespaced k = true)
      ∨ (isNamespaced x = true ∧ is_Some (m !! x)
         ∧ x ∉ selectedBroadCategories closure).
Proof.
  intros s'. unfold s', loadSkills. cbn.
  destruct (loadedBroadCategories_spec closure (keys m)) as [_ Hin].
  destruct (setFromArray_spec
              (selectedBroadCategories s ++ loadedBroadCategories closure (keys m)))
    as [Hnd' Hin'].
  split; [done|]. split; [done|]. split; [apply setFromArray_prefix|].
  intros x. rewrite Hin', elem_of_app, Hin.
  setoid_rewrite keys_elem. tauto.
Qed.

(** ** The views of the store *)

Lemma values_elem {V : Type} (o : gmap string V) (v : V) :
  v ∈ values o ↔ ∃ k, o !! k = Some v.
Proof.
  unfold values. rewrite list_elem_of_fmap. split.
  - intros ([k v'] & -> & Hin). exists k. by apply elem_of_map_to_list.
  - intros [k Hk]. exists (k, v). split; [done|]. by apply elem_of_map_to_list.
Qed.

(** A mapping has a skill when one of its sequences is not empty. *)
Lemma has_skill_iff (subCats : SubCategoryMap) :
  Exists (λ skills, 0 < length skills)%nat (values subCats)
  ↔ ∃ subCat skills, subCats !! subCat = Some skills ∧ skills ≠ [].
Proof.
  rewrite Exists_exists. split.
  - intros (skills & [subCat Hsk]%values_elem & Hlen%length_pos_iff). eauto.
  - intros (subCat & skills & Hsk & Hne). exists skills.
    split; [apply values_elem; eauto | by apply length_pos_iff].
Qed.

Lemma cleanedSubCats_empty_iff (subCats : SubCategoryMap) :
  cleanedSubCats subCats = ∅
  ↔ ∀ subCat skills, subCats !! subCat = Some skills → skills = [].
Proof.
  rewrite map_empty. split.
  - intros Hall subCat skills Hsk. specialize (Hall subCat).
    rewrite cleanedSubCats_lookup, Hsk in Hall.
    case_bool_decide as Hlen; [done|]. destruct skills; [done|]. cbn in Hlen. lia.
  - intros Hall subCat. rewrite cleanedSubCats_lookup.
    destruct (subCats !! subCat) as [skills|] eqn:Hsk; [|done].
    rewrite (Hall _ _ Hsk). by rewrite bool_decide_eq_false_2 by (cbn; lia).
Qed.

Lemma cleanedSkills_lookup_Some (m : SkillMap) (broadCat : string) :
  is_Some (cleanedSkills m !! broadCat)
  ↔ ∃ subCats, m !! broadCat = Some subCats
               ∧ Exists (λ skills, 0 < length skills)%nat (values subCats).
Proof.
  rewrite cleanedSkills_lookup. destruct (m !! broadCat) as [subCats|]; cycle 1.
  { split; [by intros [? ?] | by intros (? & ? & _)]. }
  assert ((0 < size (cleanedSubCats subCats))%nat
          ↔ Exists (λ skills, 0 < length skills)%nat (values subCats)) as Hiff.
  { rewrite has_skill_iff.
    assert ((0 < size (cleanedSubCats subCats))%nat ↔ cleanedSubCats subCats ≠ ∅)
      as -> by (rewrite <- map_size_non_empty_iff; lia).
    rewrite cleanedSubCats_empty_iff. split.
    - intros Hne. destruct (decide (∃ subCat skills,
        subCats !! subCat = Some skills ∧ skills ≠ [])) as [|Hno]; [done|].
      exfalso. apply Hne. intros subCat skills Hsk.
      destruct (decide (skills = [])); [done|]. exfalso. apply Hno. eauto.
    - intros (subCat & skills & Hsk & Hne) Hall. by apply Hne, (Hall subCat). }
  case_bool_decide as Hsize.
  - split; [|by eexists]. intros _. exists subCats. by rewrite <- Hiff.
  - split; [by intros [? ?]|]. intros (? & [= <-] & ?). exfalso. by apply Hsize, Hiff.
Qed.

Lemma skillsToDisplay_lookup (m : SkillMap) (broadCat : string) (subCats : SubCategoryMap) :
  skillsToDisplay m !! broadCat = Some subCats
  ↔ m !! broadCat = Some subCats
    ∧ Exists (λ skills, 0 < length skills)%nat (values subCats).
Proof.
  unfold skillsToDisplay, entries.
  rewrite <- elem_of_list_to_map.
  - rewrite list_elem_of_filter, elem_of_map_to_list. cbn. tauto.
  - apply (sublist_NoDup _ ((map_to_list m).*1));
      [apply NoDup_fst_map_to_list | apply fmap_sublist, sublist_filter].
Qed.

(** X2: the summary shows a broad category exactly when the save keeps
    it (it has a sequence that is not empty), and shows it with the
    sub-category mapping of the state as it is, empty sequences included;
    so the summary is empty exactly when the saved map is. *)
Theorem X2_skillsToDisplay_shows_saved_categories (m : SkillMap) :
  (∀ broadCat,
     is_Some (skillsToDisplay m !! broadCat) ↔ is_Some (cleanedSkills m !! broadCat))
  ∧ (∀ broadCat subCats,
       skillsToDisplay m !! broadCat = Some subCats → m !! broadCat = Some subCats)
  ∧ (skillsToDisplay m = ∅ ↔ cleanedSkills m = ∅).
Proof.
  assert (∀ broadCat,
     is_Some (skillsToDisplay m !! broadCat) ↔ is_Some (cleanedSkills m !! broadCat))
    as Hdom.
  { intros broadCat. rewrite cleanedSkills_lookup_Some. split.
    - intros [subCats Hs]. exists subCats. by apply skillsToDisplay_lookup.
    - intros (subCats & ? & ?). exists subCats. by apply skillsToDisplay_lookup. }
  split; [done|]. split.
  - intros broadCat subCats Hs. by apply skillsToDisplay_lookup in Hs as [? _].
  - rewrite !map_empty. split; intros Hall broadCat; specialize (Hall broadCat);
      specialize (Hdom broadCat); apply eq_None_not_Some; apply eq_None_not_Some in Hall;
      tauto.
Qed.

Lemma no_skill_iff (m : SkillMap) :
  forallb (λ broadCatSkills,
             forallb (λ subCatSkills, (length subCatSkills =? 0)%nat)
               (values broadCatSkills)) (values m) = true
  ↔ cleanedSkills m = ∅.
Proof.
  rewrite map_empty. split.
  - intros Hall broadCat. apply eq_None_not_Some.
    intros (subCats & Hb & (skills & [subCat Hsk]%values_elem & Hlen)%Exists_exists)
      %cleanedSkills_lookup_Some.
    apply Is_true_true, forallb_True, Forall_forall with (x := subCats) in Hall;
      [|apply values_elem; eauto].
    apply forallb_True, Forall_forall with (x := skills) in Hall;
      [|apply values_elem; eauto].
    apply Is_true_true, Nat.eqb_eq in Hall. lia.
  - intros Hall. apply Is_true_true, forallb_True, Forall_forall.
    intros subCats [broadCat Hb]%values_elem.
    apply forallb_True, Forall_forall. intros skills [subCat Hsk]%values_elem.
    apply Is_true_true, Nat.eqb_eq.
    destruct skills as [|skill skills]; [done|]. exfalso.
    specialize (Hall broadCat). apply eq_None_not_Some in Hall. apply Hall.
    apply cleanedSkills_lookup_Some. exists subCats. split; [done|].
    apply has_skill_iff. by exists subCat, (skill :: skills).
Qed.

(** X3: the Continue button is enabled exactly when the save would write
    at least one skill, authentication is ready and no save is under
    way. *)
Theorem X3_continue_enabled_iff (m : SkillMap) (isAuthReady : bool) (savingStatus : string) :
  continueDisabled m isAuthReady savingStatus = false
  ↔ cleanedSkills m ≠ ∅ ∧ isAuthReady = true ∧ savingStatus ≠ "Saving...".
Proof.
  unfold continueDisabled. rewrite !orb_false_iff, negb_false_iff, String.eqb_neq.
  rewrite <- no_skill_iff, not_true_iff_false. tauto.
Qed.

Lemma cleanedSkills_noEmpty (m : SkillMap) : noEmptyContainer (cleanedSkills m).
Proof.
  intros broadCat subCats. rewrite cleanedSkills_lookup.
  destruct (m !! broadCat) as [subCats0|]; [|done].
  case_bool_decide as Hsize; [|done]. intros [= <-]. split.
  - apply map_size_non_empty_iff. lia.
  - intros subCat skills. rewrite cleanedSubCats_lookup.
    destruct (subCats0 !! subCat) as [skills0|]; [|done].
    case_bool_decide as Hlen; [|done]. intros [= <-]. by apply length_pos_iff.
Qed.

Lemma cleanedSubCats_id (subCats : SubCategoryMap) :
  (∀ subCat skills, subCats !! subCat = Some skills → skills ≠ []) →
  cleanedSubCats subCats = subCats.
Proof.
  intros Hne. apply map_eq. intros subCat. rewrite cleanedSubCats_lookup.
  destruct (subCats !! subCat) as [skills|] eqn:Hsk; [|done].
  by rewrite bool_decide_eq_true_2 by (apply length_pos_iff; eauto).
Qed.

Lemma cleanedSkills_id (m : SkillMap) : noEmptyContainer m → cleanedSkills m = m.
Proof.
  intros Hno. apply map_eq. intros broadCat. rewrite cleanedSkills_lookup.
  destruct (m !! broadCat) as [subCats|] eqn:Hb; [|done].
  destruct (Hno _ _ Hb) as [Hne Hsk]. rewrite (cleanedSubCats_id _ Hsk).
  rewrite bool_decide_eq_true_2; [done|].
  apply map_size_non_empty_iff in Hne. lia.
Qed.

(** X4: the save writes the store as it is exactly when the store has no
    empty container; and what it writes is never changed by being saved
    again. *)
Theorem X4_save_fixed_points (m : SkillMap) :
  (cleanedSkills m = m ↔ noEmptyContainer m)
  ∧ cleanedSkills (cleanedSkills m) = cleanedSkills m.
Proof.
  split; [split; [|apply cleanedSkills_id] | apply cleanedSkills_id, cleanedSkills_noEmpty].
  intros <-. apply cleanedSkills_noEmpty.
Qed.

(** ** The store under the handlers *)


Lemma skillsAt_Some (m : SkillMap) (b sc : string) (l : list string) :
  skillsAt m b sc = Some l ↔ ∃ subCats, m !! b = Some subCats ∧ subCats !! sc = Some l.
Proof.
  unfold skillsAt. destruct (m !! b) as [subCats|]; cbn.
  - split; [eauto|]. by intros (? & [= <-] & ?).
  - split; [done|]. by intros (? & ? & _).
Qed.







(** The store after [handleRemoveSkill] at an address that exists. *)
Lemma handleRemoveSkill_store (broadCat subCat skill : string) (s : AppState)
    (subCats : SubCategoryMap) (skills : list string) :
  skillsByCategory s !! broadCat = Some subCats →
  subCats !! subCat = Some skills →
  let remaining := filter (λ y, y ≠ skill) skills in
  ∃ s',
    handleRemoveSkill broadCat subCat skill s = Some s'
    ∧ skillsByCategory s' !! broadCat
      = (if decide (remaining = []) then
           if decide (delete subCat subCats = ∅) then None
           else Some (delete subCat subCats)
         else Some (<[subCat := remaining]> subCats))
    ∧ ∀ b, b ≠ broadCat → skillsByCategory s' !! b = skillsByCategory s !! b.
Proof.
  intros Hb Hsc remaining.
  unfold handleRemoveSkill. rewrite Hb. cbn [from_option id]. rewrite Hsc.
  fold remaining. cbv zeta.
  destruct (decide (remaining = [])) as [Hnil|Hnil].
  - rewrite Hnil.
    rewrite (bool_decide_eq_true_2 (length (@nil string) = 0%nat)) by done.
    rewrite delete_insert_eq.
    destruct (decide (delete subCat subCats = ∅)) as [Hemp|Hemp].
    + rewrite (bool_decide_eq_true_2 (size (delete subCat subCats) = 0%nat))
        by by apply map_size_empty_iff.
      eexists. split; [reflexivity|].
      destruct (_ || _); [|destruct (arrayIncludes _ _)]; cbn;
        (split; [apply lookup_delete_eq | intros b Hne; by apply lookup_delete_ne]).
    + rewrite (bool_decide_eq_false_2 (size (delete subCat subCats) = 0%nat))
        by by rewrite map_size_empty_iff.
      eexists. split; [reflexivity|]. cbn.
      split; [apply lookup_insert_eq | intros b Hne; by apply lookup_insert_ne].
  - rewrite (bool_decide_eq_false_2 (length remaining = 0%nat))
      by (intros Hlen; by apply length_zero_iff_nil in Hlen).
    rewrite (bool_decide_eq_false_2 (size (<[subCat:=remaining]> subCats) = 0%nat))
      by (rewrite map_size_empty_iff; apply insert_non_empty).
    eexists. split; [reflexivity|]. cbn.
    split; [apply lookup_insert_eq | intros b Hne; by apply lookup_insert_ne].
Qed.

Lemma filter_ne_id (skill : string) (skills : list string) :
  skill ∉ skills → filter (λ y, y ≠ skill) skills = skills.
Proof.
  induction skills as [|y l IH]; [done|]. intros [Hne Hnot]%not_elem_of_cons.
  rewrite filter_cons. destruct (decide (y ≠ skill)) as [_|Hc]; [by rewrite IH|].
  exfalso. apply Hc. by intros ->.
Qed.

(** X6: [handleRemoveSkill] throws exactly when the addressed sequence is
    not in the store. Where it returns, the skill is no longer at the
    address, no sequence gains a skill (each sequence after is a
    subsequence of the one before at the same place) so that sequences
    without a repeated skill stay so, and removing a skill that is not at
    the address leaves a store without empty containers as it is. *)
Theorem X6_handleRemoveSkill_edges (broadCat subCat skill : string) (s : AppState) :
  (handleRemoveSkill broadCat subCat skill s = None
   ↔ skillsAt (skillsByCategory s) broadCat subCat = None)
  ∧ ∀ s', handleRemoveSkill broadCat subCat skill s = Some s' →
      (skill ∉ default [] (skillsAt (skillsByCategory s') broadCat subCat))
      ∧ (∀ b sc skills',
           skillsAt (skillsByCategory s') b sc = Some skills' →
           ∃ skills, skillsAt (skillsByCategory s) b sc = Some skills
                     ∧ skills' `sublist_of` skills)
      ∧ (noDuplicateSkill (skillsByCategory s) → noDuplicateSkill (skillsByCategory s'))
      ∧ (noEmptyContainer (skillsByCategory s) →
         skill ∉ default [] (skillsAt (skillsByCategory s) broadCat subCat) →
         skillsByCategory s' = skillsByCategory s).
Proof.
  destruct (skillsAt (skillsByCategory s) broadCat subCat) as [skills|] eqn:Hat.
  - apply skillsAt_Some in Hat as (subCats & Hb & Hsc).
    destruct (handleRemoveSkill_store broadCat subCat skill s subCats skills Hb Hsc)
      as (s1 & Hrun & Hnew & Hother).
    rewrite Hrun. split; [done|]. intros s' [= <-].
    set (remaining := filter (λ y, y ≠ skill) skills) in *.
    assert (∀ b sc skills',
              skillsAt (skillsByCategory s1) b sc = Some skills' →
              ∃ skills0, skillsAt (skillsByCategory s) b sc = Some skills0
                         ∧ skills' `sublist_of` skills0) as Hsub.
    { intros b sc skills' (subCats' & Hb' & Hsc')%skillsAt_Some.
      destruct (decide (b = broadCat)) as [->|Hne].
      - rewrite Hnew in Hb'. destruct (decide (remaining = [])).
        + destruct (decide (delete subCat subCats = ∅)); [done|].
          injection Hb' as <-. apply lookup_delete_Some in Hsc' as [_ Hsc'].
          exists skills'. split; [apply skillsAt_Some; eauto | done].
        + injection Hb' as <-.
          apply lookup_insert_Some in Hsc' as [[<- <-]|[_ Hsc']].
          * exists skills. split; [apply skillsAt_Some; eauto | apply sublist_filter].
          * exists skills'. split; [apply skillsAt_Some; eauto | done].
      - rewrite Hother in Hb' by done. exists skills'.
        split; [apply skillsAt_Some; eauto | done]. }
    split; [|split; [done|split]].
    + unfold skillsAt. rewrite Hnew. destruct (decide (remaining = [])).
      * destruct (decide (delete subCat subCats = ∅)); cbn;
          [apply not_elem_of_nil|]. rewrite lookup_delete_eq. apply not_elem_of_nil.
      * cbn. rewrite lookup_insert_eq. cbn. apply not_elem_of_filter_ne.
    + intros Hnd b sc skills' Hsk'. destruct (Hsub _ _ _ Hsk') as (skills0 & Hsk0 & Hs).
      eapply sublist_NoDup; [by eapply Hnd | done].
    + intros Hno Hnot. cbn in Hnot. destruct (Hno _ _ Hb) as [Hne Hseq].
      assert (remaining = skills) as Hrem by by apply filter_ne_id.
      apply map_eq. intros b. destruct (decide (b = broadCat)) as [->|Hb'];
        [|by apply Hother].
      rewrite Hnew, Hb, Hrem. destruct (decide (skills = [])) as [->|_].
      * by destruct (Hseq _ _ Hsc).
      * by rewrite insert_id.
  - assert (handleRemoveSkill broadCat subCat skill s = None) as ->; [|done].
    unfold handleRemoveSkill. unfold skillsAt in Hat.
    destruct (skillsByCategory s !! broadCat) as [subCats|]; cbn in *.
    + by rewrite Hat.
    + by rewrite lookup_empty.
Qed.

(** X7: a change of a broad-category checkbox never adds to the store:
    checking leaves the store as it is, unchecking leaves a part of it,
    and unchecking again changes nothing more; both keep the store free
    of empty containers and of repeated skills. In the selection only the
    changed category itself can appear or disappear: a custom or auto key
    stays selected even when unchecking has deleted its entry. *)
Theorem X7_handleBroadCategoryChange_store (value : string) (checked : bool)
    (s : AppState) :
  let s' := handleBroadCategoryChange value checked s in
  (checked = true → skillsByCategory s' = skillsByCategory s)
  ∧ skillsByCategory s' ⊆ skillsByCategory s
  ∧ skillsByCategory (handleBroadCategoryChange value false s')
    = skillsByCategory (handleBroadCategoryChange value false s)
  ∧ (noEmptyContainer (skillsByCategory s) → noEmptyContainer (skillsByCategory s'))
  ∧ (noDuplicateSkill (skillsByCategory s) → noDuplicateSkill (skillsByCategory s'))
  ∧ ∀ key, key ≠ value →
      (key ∈ selectedBroadCategories s' ↔ key ∈ selectedBroadCategories s).
Proof.
  intros s'.
  assert (checked = true → skillsByCategory s' = skillsByCategory s) as Hchecked.
  { intros ->. unfold s', handleBroadCategoryChange. cbn.
    by destruct (arrayIncludes value broadCategories || String.eqb value "Other"). }
  assert (∀ b subCats,
            skillsByCategory s' !! b = Some subCats →
            skillsByCategory s !! b = Some subCats) as Hsub.
  { destruct checked; [by rewrite Hchecked|]. unfold s'.
    rewrite handleBroadCategoryChange_unchecked. intros b subCats.
    rewrite clearBroadCategory_lookup. by destruct (_ || _). }
  split; [done|]. split; [by apply map_subseteq_spec|]. split; [|split; [|split]].
  - rewrite !handleBroadCategoryChange_unchecked. apply map_eq. intros b.
    rewrite !clearBroadCategory_lookup.
    destruct (bool_decide (b = value) || _) eqn:Hdel; [done|].
    destruct checked; [by rewrite Hchecked|]. unfold s'.
    by rewrite handleBroadCategoryChange_unchecked, clearBroadCategory_lookup, Hdel.
  - intros Hno b subCats Hb. apply (Hno b). by apply Hsub.
  - intros Hnd b sc skills (subCats & Hb & Hsc)%skillsAt_Some.
    apply (Hnd b sc). apply skillsAt_Some. exists subCats. split; [by apply Hsub|done].
  - intros key Hne. unfold s', handleBroadCategoryChange. cbv zeta.
    destruct (arrayIncludes value broadCategories || String.eqb value "Other"),
      checked, (String.eqb (activeBroadCategory s) value); cbn;
      rewrite ?elem_of_app, ?list_elem_of_singleton, ?list_elem_of_filter; tauto.
Qed.



(** ** Parsing a list of suggestions *)



Lemma codeUnits_empty (s : string) : codeUnits s = [] ↔ s = "".
Proof. by destruct s. Qed.






(** ** Auto-categorization that succeeds *)

Lemma fetchCount_failedAttempts (req : Request) (k : nat) :
  fetchCount (failedAttempts req k) = k.
Proof.
  induction k as [|k IH]; [done|].
  rewrite failedAttempts_S, fetchCount_app, IH. unfold failedAttempt.
  destruct (S k <? 5)%nat; cbn; lia.
Qed.

(** The target when attempt [k+1] is the first to succeed. *)
Lemma resolveTarget_first_success (env : Env) (c : AppState) tb0 ts0 s0
    (k : nat) (parsedJson : ParsedJson) :
  customTarget c = (tb0, ts0, s0) →
  needsAutoCategorization c tb0 ts0 = true →
  (k < 5)%nat →
  (∀ j, (j < k)%nat → tryAutoCategorize env (fetch env j) = None) →
  tryAutoCategorize env (fetch env k) = Some parsedJson →
  ∃ tr,
    resolveTarget env c
    = Some ((targetOfParsed parsedJson).1, (targetOfParsed parsedJson).2,
            setLoadingAutoCategorization false
              (selectIfMissing (selectedOfParsed parsedJson) c
                 (setLoadingAutoCategorization true s0)), tr)
    ∧ fetchCount tr = S k.
Proof.
  intros Hc Hn Hk Hfail Hok.
  destruct (resolveTarget_auto env c _ _ _ Hc Hn) as (r & tr & Hrun & Heq).
  pose proof (RetrySucceeds (λ j, tryAutoCategorize env (fetch env j))
                (ReqAutoCategorize (trim (newSkillInput c))) k parsedJson Hk Hfail Hok)
    as Hrun'.
  destruct (RetryRun_det _ _ _ _ _ _ Hrun Hrun') as [-> ->].
  eexists. split; [exact Heq|].
  rewrite fetchCount_app, fetchCount_failedAttempts. cbn. lia.
Qed.

Lemma selectIfMissing_elem (cat : string) (closure s : AppState) :
  (∀ x, x ∈ selectedBroadCategories closure → x ∈ selectedBroadCategories s) →
  cat ∈ selectedBroadCategories (selectIfMissing cat closure s).
Proof.
  intros Hsub. unfold selectIfMissing.
  destruct (arrayIncludes cat (selectedBroadCategories closure)) eqn:Hin; cbn.
  - by apply Hsub, arrayIncludes_true.
  - apply elem_of_app. right. by apply list_elem_of_singleton.
Qed.

Lemma customTarget_selected (c : AppState) tb0 ts0 s0 :
  customTarget c = (tb0, ts0, s0) →
  ∀ x, x ∈ selectedBroadCategories c → x ∈ selectedBroadCategories s0.
Proof.
  unfold customTarget. destruct (_ && _); intros [= <- <- <-] x Hx; [|done].
  unfold selectIfMissing. destruct (negb _); cbn; [|done].
  apply elem_of_app. by left.
Qed.

Lemma needsAutoCategorization_typed (c : AppState) tb ts :
  needsAutoCategorization c tb ts = true →
  skillToAdd c = trim (newSkillInput c) ∧ trim (newSkillInput c) ≠ "".
Proof.
  unfold needsAutoCategorization, skillToAdd.
  intros [[_ Hin]%andb_prop _]%andb_prop. rewrite Hin. split; [done|].
  by apply negb_true_iff, String.eqb_neq in Hin.
Qed.



(** X11: when the first successful attempt returns an empty broad
    category, the add is rejected with a warning and the store is as
    before; the empty string is nevertheless among the selected broad
    categories afterwards. *)
Theorem X11_empty_category_is_rejected_but_selected (env : Env) (c : AppState)
    tb0 ts0 s0 (k : nat) (parsedJson : ParsedJson)
    (Hc : customTarget c = (tb0, ts0, s0))
    (Hn : needsAutoCategorization c tb0 ts0 = true)
    (Hk : (k < 5)%nat)
    (Hfail : ∀ j, (j < k)%nat → tryAutoCategorize env (fetch env j) = None)
    (Hok : tryAutoCategorize env (fetch env k) = Some parsedJson)
    (Hbroad : broadCategory parsedJson = "") :
  ∃ s' tr,
    handleAddSkill env c = Some (s', tr)
    ∧ last tr = Some EvWarnNoCategory
    ∧ skillsByCategory s' = skillsByCategory c
    ∧ "" ∈ selectedBroadCategories s'.
Proof.
  destruct (needsAutoCategorization_typed c _ _ Hn) as [Hskill Htyped].
  destruct (resolveTarget_first_success env c _ _ _ k parsedJson Hc Hn Hk Hfail Hok)
    as (tr & Hres & Hcount).
  unfold targetOfParsed, selectedOfParsed in Hres. rewrite Hbroad in Hres.
  cbn in Hres. unfold handleAddSkill.
  rewrite (eqb_false_of_ne _ _ (eq_ind_r (λ x, x ≠ "") Htyped Hskill)), Hres. cbn.
  eexists _, _. split; [reflexivity|]. split; [apply last_snoc|]. cbn.
  destruct (selectIfMissing_inputs "" c (setLoadingAutoCategorization true s0))
    as [_ Hsk].
  destruct (customTarget_inputs _ _ _ _ Hc) as (_ & Hsk0 & _).
  split; [by rewrite Hsk|].
  apply selectIfMissing_elem, (customTarget_selected _ _ _ _ Hc).
Qed.

Lemma X11_empty_category_is_rejected_but_selected_witness :
  ∃ s' tr,
    handleAddSkill envNoCategory typedJuggling = Some (s', tr)
    ∧ last tr = Some EvWarnNoCategory
    ∧ skillsByCategory s' = skillsByCategory typedJuggling
    ∧ "" ∈ selectedBroadCategories s'.
Proof.
  apply (X11_empty_category_is_rejected_but_selected envNoCategory typedJuggling
           "" "" typedJuggling 0 (mkParsedJson "" "")).
  - reflexivity.
  - reflexivity.
  - lia.
  - intros j Hj. lia.
  - reflexivity.
  - reflexivity.
Defined.

(** ** The bare Other category *)

(** X12: with Other as the active broad category, no custom name and a
    skill picked from the suggestions (nothing typed), [handleAddSkill]
    makes no request and stores the skill under the key Other itself, in
    the active sub-category or General; that key is neither a standard
    category nor in the custom or auto name space, and the selection stays
    as it is. *)
Theorem X12_picked_skill_under_bare_Other (env : Env) (s : AppState)
    (Hactive : activeBroadCategory s = "Other")
    (Hcustom : trim (newCustomBroadCategory s) = "")
    (Htyped : trim (newSkillInput s) = "")
    (Hskill : skillToAdd s ≠ "") :
  ∃ s' tr,
    handleAddSkill env s = Some (s', tr)
    ∧ fetchCount tr = 0%nat
    ∧ skillToAdd s
      ∈ default [] (skillsAt (skillsByCategory s') "Other"
                      (orGeneral (activeSubCategory s)))
    ∧ selectedBroadCategories s' = selectedBroadCategories s
    ∧ isNamespaced "Other" = false
    ∧ ("Other" ∉ broadCategories).
Proof.
  assert (customTarget s = ("Other", activeSubCategory s, s)) as Hc.
  { unfold customTarget. rewrite Hactive, Hcustom. done. }
  assert (needsAutoCategorization s "Other" (activeSubCategory s) = false) as Hno.
  { unfold needsAutoCategorization. rewrite Htyped. cbn. by rewrite andb_false_r. }
  pose proof (resolveTarget_manual env s _ _ _ Hc Hno) as Hres.
  rewrite (handleAddSkill_resolved env s _ _ _ _ Hskill Hres) by done.
  case_bool_decide as Hdup.
  - eexists _, _. split; [reflexivity|]. repeat split; [done|compute_done].
  - eexists _, _. split; [reflexivity|]. split; [done|]. cbn.
    rewrite skillsAt_appendSkill_eq. cbn. split; [|repeat split; compute_done].
    apply elem_of_app. right. by apply list_elem_of_singleton.
Qed.

Lemma X12_picked_skill_under_bare_Other_witness :
  ∃ s' tr,
    handleAddSkill envDown pickedUnderOther = Some (s', tr)
    ∧ fetchCount tr = 0%nat
    ∧ "Mixing" ∈ default [] (skillsAt (skillsByCategory s') "Other" "General")
    ∧ selectedBroadCategories s' = ["Other"]
    ∧ isNamespaced "Other" = false
    ∧ ("Other" ∉ broadCategories).
Proof.
  apply (X12_picked_skill_under_bare_Other envDown pickedUnderOther).
  - reflexivity.
  - reflexivity.
  - reflexivity.
  - discriminate.
Defined.

(** ** What the suggestion requests leave alone *)

(** X13: [fetchSubCategories] and [fetchSpecificSkills] never touch the
    store, the selection or the form inputs, nor each other's list and
    flag. For an empty or Other category (or, for skills, an empty
    sub-category) they make no request, empty their list and leave their
    loading flag as it is; otherwise they make at least one request and
    end with the loading flag down. *)
Theorem X13_suggestions_frame (env : Env) (s : AppState) :
  (∀ category s' tr,
     fetchSubCategories env category s = Some (s', tr) →
     skillsByCategory s' = skillsByCategory s
     ∧ selectedBroadCategories s' = selectedBroadCategories s
     ∧ sameInputs s s'
     ∧ suggestedSpecificSkills s' = suggestedSpecificSkills s
     ∧ loadingSpecificSkills s' = loadingSpecificSkills s
     ∧ (if bool_decide (category = "" ∨ category = "Other")
        then tr = [] ∧ suggestedSubCategories s' = []
             ∧ loadingSubCategories s' = loadingSubCategories s
        else (1 ≤ fetchCount tr)%nat ∧ loadingSubCategories s' = false))
  ∧ (∀ broadCat subCat s' tr,
       fetchSpecificSkills env broadCat subCat s = Some (s', tr) →
       skillsByCategory s' = skillsByCategory s
       ∧ selectedBroadCategories s' = selectedBroadCategories s
       ∧ sameInputs s s'
       ∧ suggestedSubCategories s' = suggestedSubCategories s
       ∧ loadingSubCategories s' = loadingSubCategories s
       ∧ (if bool_decide (broadCat = "" ∨ subCat = "" ∨ broadCat = "Other")
          then tr = [] ∧ suggestedSpecificSkills s' = []
               ∧ loadingSpecificSkills s' = loadingSpecificSkills s
          else (1 ≤ fetchCount tr)%nat ∧ loadingSpecificSkills s' = false)).
Proof.
  split.
  - intros category s' tr. case_bool_decide as Hguard.
    + unfold fetchSubCategories.
      assert (negb (truthy category) || String.eqb category "Other" = true) as ->.
      { destruct Hguard as [->| ->]; reflexivity. }
      intros [= <- <-]. by repeat split.
    + assert (truthy category = true ∧ category ≠ "Other") as [Ht Hne].
      { split; [apply truthy_true|]; intros ->; apply Hguard; tauto. }
      destruct (fetchSubCategories_retry env category s Ht Hne) as (r & tr0 & Hrun & ->).
      intros [= <- <-]. destruct (RetryRun_shape _ _ _ _ Hrun) as ([Hone _] & _).
      destruct r; by repeat split.
  - intros broadCat subCat s' tr. case_bool_decide as Hguard.
    + unfold fetchSpecificSkills.
      assert (negb (truthy broadCat) || negb (truthy subCat)
              || String.eqb broadCat "Other" = true) as ->.
      { destruct Hguard as [->|[->| ->]]; cbn; rewrite ?orb_true_r; reflexivity. }
      intros [= <- <-]. by repeat split.
    + assert (truthy broadCat = true ∧ truthy subCat = true ∧ broadCat ≠ "Other")
        as (Hb & Hs & Hne).
      { split; [apply truthy_true|split; [apply truthy_true|]];
          intros ->; apply Hguard; tauto. }
      destruct (fetchSpecificSkills_retry env broadCat subCat s Hb Hs Hne)
        as (r & tr0 & Hrun & ->).
      intros [= <- <-]. destruct (RetryRun_shape _ _ _ _ Hrun) as ([Hone _] & _).
      destruct r; by repeat split.
Qed.

(** ** Display names *)

Lemma dropPrefix_append (p s : string) : dropPrefix p (p +:+ s) = s.
Proof. induction p as [|a p IH]; [by destruct s|]. by rewrite append_String. Qed.

Lemma startsWith_trans (p q s : string) :
  startsWith p q = true → startsWith q s = true → startsWith p s = true.
Proof.
  revert q s. induction p as [|a p IH]; intros q s; [done|].
  destruct q as [|b q]; [done|]. destruct s as [|c s]; [done|]. cbn.
  intros [Hab Hp]%andb_prop [Hbc Hq]%andb_prop.
  apply Ascii.eqb_eq in Hab as ->. rewrite Hbc. cbn. by eapply IH.
Qed.

(** X14: a custom key is displayed as Custom: followed by its name, so
    different custom names never share a label; every key that starts with
    the key for uncategorized skills is displayed as Auto-Uncategorized,
    whatever follows; another auto key is displayed with its name; and a
    key outside the two name spaces is displayed as it is. *)
Theorem X14_formatCategoryForDisplay_labels :
  (∀ name, formatCategoryForDisplay ("Other_Custom_" +:+ name) = "Custom: " +:+ name)
  ∧ (∀ name1 name2,
       formatCategoryForDisplay ("Other_Custom_" +:+ name1)
       = formatCategoryForDisplay ("Other_Custom_" +:+ name2) →
       name1 = name2)
  ∧ (∀ rest,
       formatCategoryForDisplay ("Other_Auto_Uncategorized" +:+ rest)
       = "Auto-Uncategorized")
  ∧ (∀ name, startsWith "Uncategorized" name = false →
       formatCategoryForDisplay ("Other_Auto_" +:+ name)
       = "Auto-Categorized: " +:+ name)
  ∧ (∀ key, isNamespaced key = false → formatCategoryForDisplay key = key).
Proof.
  assert (∀ name,
    formatCategoryForDisplay ("Other_Custom_" +:+ name) = "Custom: " +:+ name) as Hcustom.
  { intros name. unfold formatCategoryForDisplay.
    by rewrite startsWith_append, dropPrefix_append. }
  split; [done|]. split; [|split; [|split]].
  - intros name1 name2. rewrite !Hcustom. apply String.app_inj.
  - intros rest. unfold formatCategoryForDisplay.
    rewrite (startsWith_append "Other_Auto_Uncategorized"). reflexivity.
  - intros name Hname. unfold formatCategoryForDisplay.
    assert (startsWith "Other_Auto_Uncategorized" ("Other_Auto_" +:+ name) = false)
      as -> by exact Hname.
    rewrite (startsWith_append "Other_Auto_"), dropPrefix_append. reflexivity.
  - intros key [Hc Ha]%orb_false_elim. unfold formatCategoryForDisplay.
    rewrite Hc, Ha.
    destruct (startsWith "Other_Auto_Uncategorized" key) eqn:Hu; [|done].
    by rewrite (startsWith_trans "Other_Auto_" "Other_Auto_Uncategorized" key) in Ha.
Qed.

(** ** Changing the active category *)

(** X15: choosing another active broad category or sub-category discards
    the typed skill and the picked suggestion, so that an Add right after
    it does nothing at all: it returns the state as it is, with no request
    and no warning. *)
Theorem X15_active_change_discards_pending_skill (env : Env) (value : string)
    (s : AppState) :
  skillToAdd (handleActiveBroadCategoryChange value s) = ""
  ∧ handleAddSkill env (handleActiveBroadCategoryChange value s)
    = Some (handleActiveBroadCategoryChange value s, [])
  ∧ skillToAdd (handleActiveSubCategoryChange value s) = ""
  ∧ handleAddSkill env (handleActiveSubCategoryChange value s)
    = Some (handleActiveSubCategoryChange value s, []).
Proof. by repeat split. Qed.

(** ** Exhausted auto-categorization and the selection after a removal *)

(** X16: whenever the auto-categorization of [handleAddSkill] runs and
    all five attempts fail, the add still goes through: after five
    requests and waits of 1s, 2s, 4s and 8s the typed skill is stored
    under the key for uncategorized skills, sub-category General, and
    Other is among the selected broad categories. *)
Theorem X16_exhausted_auto_categorization_still_adds (env : Env) (c : AppState)
    tb0 ts0 s0
    (Hc : customTarget c = (tb0, ts0, s0))
    (Hn : needsAutoCategorization c tb0 ts0 = true)
    (Hfail : ∀ j, (j < 5)%nat → tryAutoCategorize env (fetch env j) = None) :
  ∃ s' tr,
    handleAddSkill env c = Some (s', tr)
    ∧ fetchCount tr = 5%nat
    ∧ waits tr = [1000; 2000; 4000; 8000]%Z
    ∧ trim (newSkillInput c)
      ∈ default [] (skillsAt (skillsByCategory s') "Other_Auto_Uncategorized" "General")
    ∧ "Other" ∈ selectedBroadCategories s'
    ∧ ∀ b sc, (b, sc) ≠ ("Other_Auto_Uncategorized", "General") →
        skillsAt (skillsByCategory s') b sc = skillsAt (skillsByCategory c) b sc.
Proof.
  assert (skillToAdd c = trim (newSkillInput c) ∧ trim (newSkillInput c) ≠ "")
    as [Hskill Htyped].
  { unfold needsAutoCategorization, skillToAdd in *.
    apply andb_prop in Hn as [[_ Hin]%andb_prop _]. rewrite Hin. split; [done|].
    by apply negb_true_iff, String.eqb_neq in Hin. }
  destruct (resolveTarget_auto env c _ _ _ Hc Hn) as (r & tr & Hrun & Hres).
  destruct (RetryRun_exhausted _ _ _ _ Hfail Hrun) as [-> ->].
  cbn [autoTarget autoSelected fst snd] in Hres.
  assert (skillToAdd c ≠ "") as Hskill' by by rewrite Hskill.
  rewrite (handleAddSkill_resolved env c _ _ _ _ Hskill' Hres) by done.
  change (orGeneral "General") with "General". rewrite Hskill.
  set (st := selectIfMissing "Other" c (setLoadingAutoCategorization true s0)).
  assert ("Other" ∈ selectedBroadCategories st) as Hin.
  { unfold st, selectIfMissing.
    destruct (arrayIncludes "Other" (selectedBroadCategories c)) eqn:Hsel; cbn.
    - apply arrayIncludes_true in Hsel. revert Hsel. unfold customTarget in Hc.
      destruct (_ && _); injection Hc as _ _ <-; [|done].
      unfold selectIfMissing. destruct (negb _); cbn; [|done].
      intros ?. apply elem_of_app. by left.
    - apply elem_of_app. right. by apply list_elem_of_singleton. }
  assert (skillsByCategory st = skillsByCategory c) as Hsk.
  { destruct (selectIfMissing_inputs "Other" c (setLoadingAutoCategorization true s0))
      as [_ Hst]. fold st in Hst. rewrite Hst. cbn.
    by destruct (customTarget_inputs _ _ _ _ Hc) as (_ & -> & _). }
  clearbody st. rewrite <- Hsk.
  case_bool_decide as Hdup.
  - eexists _, _. split; [reflexivity|]. split; [reflexivity|].
    split; [reflexivity|]. by repeat split.
  - eexists _, _. split; [reflexivity|]. split; [reflexivity|].
    split; [reflexivity|].
    cbn [skillsByCategory selectedBroadCategories setSelectedSuggestedSkill
         setNewSkillInput setSkillsByCategory setLoadingAutoCategorization].
    rewrite skillsAt_appendSkill_eq.
    split; [apply elem_of_app; right; by apply list_elem_of_singleton|].
    split; [done|]. intros b sc Hne. by apply skillsAt_appendSkill_ne.
Qed.

Lemma X16_exhausted_auto_categorization_still_adds_witness :
  ∃ s' tr,
    handleAddSkill envDown typedJuggling = Some (s', tr)
    ∧ fetchCount tr = 5%nat
    ∧ waits tr = [1000; 2000; 4000; 8000]%Z
    ∧ "Juggling"
      ∈ default [] (skillsAt (skillsByCategory s') "Other_Auto_Uncategorized" "General")
    ∧ "Other" ∈ selectedBroadCategories s'
    ∧ ∀ b sc, (b, sc) ≠ ("Other_Auto_Uncategorized", "General") →
        skillsAt (skillsByCategory s') b sc
        = skillsAt (skillsByCategory typedJuggling) b sc.
Proof.
  apply (X16_exhausted_auto_categorization_still_adds envDown typedJuggling
           "" "" typedJuggling).
  - reflexivity.
  - reflexivity.
  - intros j Hj. reflexivity.
Defined.

(** X17: what [handleRemoveSkill] does to the selection. When the removal
    takes the last skill of the broad category, so that its entry goes:
    for a key in the custom or auto name space the key and Other are both
    taken out of the selection, whatever other keys the store still has;
    for a standard category that category is taken out; for a key of
    neither kind the selection stays. When the entry stays, so does the
    selection. *)
Theorem X17_handleRemoveSkill_selection (broadCat subCat skill : string)
    (s s' : AppState)
    (Hrun : handleRemoveSkill broadCat subCat skill s = Some s') :
  selectedBroadCategories s'
  = if bool_decide (skillsByCategory s' !! broadCat = None) then
      if isNamespaced broadCat then
        filter (λ c, c ≠ broadCat ∧ c ≠ "Other") (selectedBroadCategories s)
      else if bool_decide (broadCat ∈ broadCategories) then
        filter (λ c, c ≠ broadCat) (selectedBroadCategories s)
      else selectedBroadCategories s
    else selectedBroadCategories s.
Proof.
  revert Hrun. unfold handleRemoveSkill, isNamespaced.
  destruct (default ∅ (skillsByCategory s !! broadCat) !! subCat) as [skills|];
    [|done]. cbv zeta.
  destruct (bool_decide (size _ = 0%nat)); intros [= <-].
  - unfold arrayIncludes.
    destruct (_ || _); [|destruct (bool_decide (broadCat ∈ broadCategories))]; cbn;
      by rewrite lookup_delete_eq, bool_decide_eq_true_2.
  - cbn. rewrite lookup_insert_eq. by rewrite bool_decide_eq_false_2.
Qed.

Lemma X17_handleRemoveSkill_selection_witness :
  ∃ s',
    handleRemoveSkill "Other_Custom_Falconry" "General" "Hawk training"
      twoCustomCategories = Some s'
    ∧ selectedBroadCategories s'
      = if bool_decide (skillsByCategory s' !! "Other_Custom_Falconry" = None) then
          if isNamespaced "Other_Custom_Falconry" then
            filter (λ c, c ≠ "Other_Custom_Falconry" ∧ c ≠ "Other")
              (selectedBroadCategories twoCustomCategories)
          else if bool_decide ("Other_Custom_Falconry" ∈ broadCategories) then
            filter (λ c, c ≠ "Other_Custom_Falconry")
              (selectedBroadCategories twoCustomCategories)
          else selectedBroadCategories twoCustomCategories
        else selectedBroadCategories twoCustomCategories.
Proof.
  eexists. split; [vm_compute; reflexivity|].
  apply (X17_handleRemoveSkill_selection "Other_Custom_Falconry" "General"
           "Hawk training" twoCustomCategories).
  vm_compute. reflexivity.
Defined.

(** * The form as a whole *)

(** ** What the controls offer *)

Lemma activeBroadCategoryOptions_elem (s : AppState) (x : string) :
  x ∈ activeBroadCategoryOptions s ↔
    x = ""
    ∨ (x ∈ selectedBroadCategories s
       ∧ startsWith "Other_Custom_" x = false
       ∧ startsWith "Other_Auto_Uncategorized" x = false)
    ∨ ((startsWith "Other_Custom_" x = true
        ∨ startsWith "Other_Auto_Uncategorized" x = true)
       ∧ is_Some (skillsByCategory s !! x)
       ∧ x ∉ selectedBroadCategories s).
Proof.
  unfold activeBroadCategoryOptions.
  rewrite elem_of_cons, elem_of_app, !list_elem_of_In, !filter_In,
    <- !list_elem_of_In, keys_elem.
  rewrite !andb_true_iff, !negb_true_iff, orb_true_iff.
  unfold arrayIncludes. rewrite bool_decide_eq_false. tauto.
Qed.

(** The summary has a remove button for exactly the skills of the
    store. *)
Lemma removeButtons_elem (s : AppState) (broadCat subCat skill : string) :
  (broadCat, subCat, skill) ∈ removeButtons s ↔
    ∃ skills, skillsAt (skillsByCategory s) broadCat subCat = Some skills
              ∧ skill ∈ skills.
Proof.
  unfold removeButtons, entries. rewrite list_elem_of_bind. split.
  - intros ([b subCats] & Hin & Hentry). cbn [fst snd] in Hin.
    apply elem_of_map_to_list, skillsToDisplay_lookup in Hentry as [Hb _].
    destruct (decide _) as [_|_]; [|by apply elem_of_nil in Hin].
    apply list_elem_of_bind in Hin as ([sc skills] & Hin & Hsc). cbn [fst snd] in Hin.
    apply elem_of_map_to_list in Hsc.
    destruct (0 <? length skills)%nat; [|by apply elem_of_nil in Hin].
    apply list_elem_of_fmap in Hin as (skill' & [= -> -> ->] & Hskill).
    exists skills. split; [|done]. apply skillsAt_Some. eauto.
  - intros (skills & (subCats & Hb & Hsc)%skillsAt_Some & Hskill).
    assert (skills ≠ []) as Hne by (intros ->; by apply elem_of_nil in Hskill).
    assert (Exists (λ skills, 0 < length skills)%nat (values subCats)) as Hex.
    { apply has_skill_iff. eauto. }
    exists (broadCat, subCats). split.
    + cbn [fst snd]. rewrite decide_True by done. apply list_elem_of_bind.
      exists (subCat, skills). split; [|by apply elem_of_map_to_list]. cbn [fst snd].
      assert ((0 <? length skills)%nat = true) as ->.
      { apply Nat.ltb_lt. by apply length_pos_iff. }
      apply list_elem_of_fmap. by exists skill.
    + apply elem_of_map_to_list, skillsToDisplay_lookup. done.
Qed.

(** ** What one event does to the selection and the store *)

(** The target of [resolveTarget] is the active broad category, the key
    for uncategorized skills, or a category that is selected afterwards;
    and the selection is the one before, or has one more category at its
    end. *)
Lemma resolveTarget_selection (env : Env) (c : AppState) tb ts st tr :
  resolveTarget env c = Some (tb, ts, st, tr) →
  (selectedBroadCategories st = selectedBroadCategories c
   ∨ ∃ x, (x ∉ selectedBroadCategories c)
          ∧ selectedBroadCategories st = selectedBroadCategories c ++ [x])
  ∧ (tb = activeBroadCategory c ∨ tb = "Other_Auto_Uncategorized"
     ∨ tb ∈ selectedBroadCategories st).
Proof.
  assert (∀ cat s,
            selectedBroadCategories s = selectedBroadCategories c →
            (selectedBroadCategories (selectIfMissing cat c s) = selectedBroadCategories c
             ∨ ∃ x, (x ∉ selectedBroadCategories c)
                    ∧ selectedBroadCategories (selectIfMissing cat c s)
                      = selectedBroadCategories c ++ [x])
            ∧ cat ∈ selectedBroadCategories (selectIfMissing cat c s)) as Hsel.
  { intros cat s Hs. unfold selectIfMissing.
    destruct (arrayIncludes cat (selectedBroadCategories c)) eqn:Hin; cbn.
    - apply arrayIncludes_true in Hin. rewrite Hs. split; [by left|done].
    - apply arrayIncludes_false in Hin. rewrite Hs. split.
      + right. by exists cat.
      + apply elem_of_app. right. by apply list_elem_of_singleton. }
  destruct (customTarget c) as [[tb0 ts0] s0] eqn:Hc.
  destruct (needsAutoCategorization c tb0 ts0) eqn:Hn.
  - destruct (resolveTarget_auto env c _ _ _ Hc Hn) as (r & tr0 & _ & ->).
    intros [= <- <- <- <-].
    assert (s0 = c) as ->.
    { revert Hc Hn. unfold customTarget.
      destruct (_ && _); intros [= <- <- <-]; [|done].
      unfold needsAutoCategorization. rewrite append_String. cbn.
      by rewrite andb_false_l. }
    destruct (Hsel (autoSelected r) (setLoadingAutoCategorization true c) eq_refl)
      as [Hs Hin].
    set (st0 := selectIfMissing (autoSelected r) c
                  (setLoadingAutoCategorization true c)) in *.
    change (selectedBroadCategories (setLoadingAutoCategorization false st0))
      with (selectedBroadCategories st0).
    split; [exact Hs|]. clearbody st0.
    destruct r as [parsedJson|]; cbn [autoTarget autoSelected fst] in *; [|tauto].
    unfold targetOfParsed, selectedOfParsed in *.
    destruct (String.eqb (broadCategory parsedJson) "Other"); cbn [fst]; tauto.
  - rewrite (resolveTarget_manual env c _ _ _ Hc Hn). intros [= <- <- <- <-].
    revert Hc. unfold customTarget. destruct (_ && _); intros [= <- <- <-].
    + destruct (Hsel ("Other_Custom_" +:+ trim (newCustomBroadCategory c)) c eq_refl)
        as [Hs Hin]. tauto.
    + split; [by left|by left].
Qed.

(** [handleAddSkill] leaves the active broad category; the selection is
    the one before, or has one more category at its end; and a skill is
    stored only under the active broad category, the key for
    uncategorized skills, or a category selected afterwards. *)
Lemma handleAddSkill_effect (env : Env) (s s' : AppState) (tr : list Event) :
  handleAddSkill env s = Some (s', tr) →
  activeBroadCategory s' = activeBroadCategory s
  ∧ (selectedBroadCategories s' = selectedBroadCategories s
     ∨ ∃ x, (x ∉ selectedBroadCategories s)
            ∧ selectedBroadCategories s' = selectedBroadCategories s ++ [x])
  ∧ (skillsByCategory s' = skillsByCategory s
     ∨ ∃ tb ts,
         skillsByCategory s' = appendSkill tb ts (skillToAdd s) (skillsByCategory s)
         ∧ (skillToAdd s ∉ default [] (skillsAt (skillsByCategory s) tb ts))
         ∧ (tb = activeBroadCategory s ∨ tb = "Other_Auto_Uncategorized"
            ∨ tb ∈ selectedBroadCategories s')).
Proof.
  unfold handleAddSkill. cbv zeta.
  destruct (String.eqb (skillToAdd s) "").
  { intros [= <- <-]. split; [done|]. split; by left. }
  destruct (resolveTarget_spec env s) as (tb & ts & st & tr0 & Hres & Hin & Hsk & _).
  rewrite Hres. destruct (resolveTarget_selection env s _ _ _ _ Hres) as [Hsel Htb].
  destruct Hin as (_ & _ & Hactive & _).
  destruct (negb (truthy tb)).
  { intros [= <- <-]. cbn. split; [done|]. split; [done|]. by left. }
  rewrite includes_stored. case_bool_decide as Hdup; intros [= <- <-]; cbn.
  - split; [done|]. split; [done|]. by left.
  - split; [done|]. split; [done|]. right. eexists _, _. rewrite Hsk. done.
Qed.

Lemma handleBroadCategoryChange_submap (value : string) (checked : bool)
    (s : AppState) (b : string) (subCats : SubCategoryMap) :
  skillsByCategory (handleBroadCategoryChange value checked s) !! b = Some subCats →
  skillsByCategory s !! b = Some subCats.
Proof.
  destruct checked.
  - unfold handleBroadCategoryChange. cbn.
    by destruct (arrayIncludes value broadCategories || String.eqb value "Other").
  - rewrite handleBroadCategoryChange_unchecked, clearBroadCategory_lookup.
    by destruct (_ || _).
Qed.

(** A checkbox that is clicked: the selection gains the category when it
    was not selected and loses it otherwise; the active broad category
    afterwards is the category, none, or the one before. *)
Lemma toggle_effect (category : string) (s : AppState) :
  category ∈ broadCategories ++ ["Other"] →
  let s' := handleBroadCategoryChange category
              (negb (arrayIncludes category (selectedBroadCategories s))) s in
  (selectedBroadCategories s'
   = if arrayIncludes category (selectedBroadCategories s)
     then filter (λ cat, cat ≠ category) (selectedBroadCategories s)
     else selectedBroadCategories s ++ [category])
  ∧ (activeBroadCategory s' = category ∨ activeBroadCategory s' = ""
     ∨ activeBroadCategory s' = activeBroadCategory s).
Proof.
  intros Hin s'. unfold s', handleBroadCategoryChange. cbv zeta.
  assert (arrayIncludes category broadCategories || String.eqb category "Other" = true)
    as ->.
  { apply elem_of_app in Hin as [Hin| ->%list_elem_of_singleton].
    - unfold arrayIncludes. by rewrite bool_decide_eq_true_2.
    - apply orb_true_r. }
  destruct (arrayIncludes category (selectedBroadCategories s)); cbn.
  - destruct (String.eqb (activeBroadCategory s) category); cbn; tauto.
  - tauto.
Qed.

Lemma checkbox_not_custom (category : string) :
  category ∈ broadCategories ++ ["Other"] → startsWith "Other_Custom_" category = false.
Proof.
  unfold broadCategories. cbn [app]. rewrite !elem_of_cons, elem_of_nil.
  intros [->|[->|[->|[->|[->|[->|[->|[->|[]]]]]]]]]; reflexivity.
Qed.

(** [handleRemoveSkill] leaves the active broad category; the selection
    keeps its order and every category other than the addressed one and
    Other; and it stays as it is when the addressed entry stays. *)
Lemma handleRemoveSkill_effect (broadCat subCat skill : string) (s s' : AppState) :
  handleRemoveSkill broadCat subCat skill s = Some s' →
  activeBroadCategory s' = activeBroadCategory s
  ∧ selectedBroadCategories s' `sublist_of` selectedBroadCategories s
  ∧ (∀ key, key ∈ selectedBroadCategories s → key ≠ broadCat → key ≠ "Other" →
       key ∈ selectedBroadCategories s')
  ∧ (is_Some (skillsByCategory s' !! broadCat) →
     selectedBroadCategories s' = selectedBroadCategories s)
  ∧ is_Some (skillsByCategory s !! broadCat)
  ∧ ∀ b, b ≠ broadCat → skillsByCategory s' !! b = skillsByCategory s !! b.
Proof.
  unfold handleRemoveSkill.
  destruct (skillsByCategory s !! broadCat) as [subCats|] eqn:Hentry; cycle 1.
  { cbn. by rewrite lookup_empty. }
  cbn [from_option id].
  destruct (subCats !! subCat) as [skills|]; [|done]. cbv zeta.
  destruct (bool_decide (size _ = 0%nat)); intros [= <-].
  - destruct (_ || _); [|destruct (arrayIncludes _ _)]; cbn;
      rewrite lookup_delete_eq;
      (split; [done|]); (split; [first [apply sublist_filter | done]|]);
      (split; [intros key Hkey Hb Ho; rewrite ?list_elem_of_filter; tauto|]);
      (split; [by intros [? ?]|]); (split; [done|]);
      intros b Hb; by apply lookup_delete_ne.
  - cbn. do 5 (split; [done|]). intros b Hb. by apply lookup_insert_ne.
Qed.

Lemma custom_not_uncategorized (x : string) :
  startsWith "Other_Custom_" x = true →
  startsWith "Other_Auto_Uncategorized" x = false.
Proof.
  intros H. destruct (startsWith "Other_Auto_Uncategorized" x) eqn:Hu; [|done].
  exfalso.
  do 7 (destruct x as [|? x];
        [cbn [startsWith] in H; repeat (apply andb_prop in H as [_ H]); discriminate|]).
  cbn [startsWith] in H. repeat (apply andb_prop in H as [?%Ascii.eqb_eq H]). subst.
  cbn in Hu. discriminate.
Qed.



(** The two suggestion effects leave the selection, the store and the
    active broad category. *)
Lemma fetchSubCategories_keeps (env : Env) (category : string) (s s' : AppState)
    (tr : list Event) :
  fetchSubCategories env category s = Some (s', tr) →
  selectedBroadCategories s' = selectedBroadCategories s
  ∧ skillsByCategory s' = skillsByCategory s
  ∧ activeBroadCategory s' = activeBroadCategory s.
Proof.
  destruct (truthy category) eqn:Ht;
    [destruct (decide (category = "Other")) as [->|Hne]|].
  - intros [= <- <-]. done.
  - destruct (fetchSubCategories_retry env category s Ht Hne) as (r & tr0 & _ & ->).
    intros [= <- <-]. by destruct r.
  - unfold fetchSubCategories. rewrite Ht. intros [= <- <-]. done.
Qed.

Lemma fetchSpecificSkills_keeps (env : Env) (broadCat subCat : string)
    (s s' : AppState) (tr : list Event) :
  fetchSpecificSkills env broadCat subCat s = Some (s', tr) →
  selectedBroadCategories s' = selectedBroadCategories s
  ∧ skillsByCategory s' = skillsByCategory s
  ∧ activeBroadCategory s' = activeBroadCategory s.
Proof.
  destruct (truthy broadCat) eqn:Hb; [destruct (truthy subCat) eqn:Hs;
    [destruct (decide (broadCat = "Other")) as [->|Hne]|]|].
  - unfold fetchSpecificSkills. rewrite Hs. intros [= <- <-]. done.
  - destruct (fetchSpecificSkills_retry env broadCat subCat s Hb Hs Hne)
      as (r & tr0 & _ & ->).
    intros [= <- <-]. by destruct r.
  - unfold fetchSpecificSkills. rewrite Hb, Hs. intros [= <- <-]. done.
  - unfold fetchSpecificSkills. rewrite Hb. intros [= <- <-]. done.
Qed.

(** ** Invariants of a session *)

Lemma step_selectionInvariant (e : FormEvent) (s s' : AppState) :
  selectionInvariant s → step e s = Some s' → selectionInvariant s'.
Proof.
  intros (Hnd & Hcustom & Hactive). unfold step.
  destruct (offered e s) eqn:Hoff; [|done].
  destruct e; cbn [handle offered] in *.
  - intros [= <-]. apply arrayIncludes_true in Hoff.
    destruct (toggle_effect category s Hoff) as [Hsel Hact].
    pose proof (checkbox_not_custom _ Hoff) as Hstd.
    split; [|split].
    + rewrite Hsel.
      destruct (arrayIncludes category (selectedBroadCategories s)) eqn:Hin.
      * by apply NoDup_filter.
      * apply arrayIncludes_false in Hin. apply NoDup_app.
        split; [done|]. split; [|apply NoDup_singleton].
        by intros y Hy ->%list_elem_of_singleton.
    + intros key Hk [subCats Hb]. apply handleBroadCategoryChange_submap in Hb.
      assert (key ∈ selectedBroadCategories s) as Hin by (apply Hcustom; eauto).
      assert (key ≠ category) as Hne by (intros ->; congruence).
      rewrite Hsel. destruct (arrayIncludes category (selectedBroadCategories s)).
      * by apply list_elem_of_filter.
      * apply elem_of_app. by left.
    + destruct Hact as [->|[->| ->]]; done.
  - intros [= <-]. apply andb_prop in Hoff as [_ Hin%arrayIncludes_true].
    apply activeBroadCategoryOptions_elem in Hin.
    split; [done|]. split; [done|]. cbn.
    destruct Hin as [->|[(_ & Hc & _)|([Hc|Hu] & Hs & Hnot)]]; [done|done| |].
    + exfalso. apply Hnot. by apply Hcustom.
    + destruct (startsWith "Other_Custom_" value) eqn:Hc; [|done].
      apply custom_not_uncategorized in Hc. congruence.
  - by intros [= <-].
  - by intros [= <-].
  - by intros [= <-].
  - by intros [= <-].
  - destruct (handleAddSkill env s) as [[s1 tr]|] eqn:Hadd; [|done].
    intros [= <-]. apply handleAddSkill_effect in Hadd as (Hact & Hsel & Hstore).
    assert (∀ y, y ∈ selectedBroadCategories s → y ∈ selectedBroadCategories s1)
      as Hsub.
    { intros y Hy. destruct Hsel as [->|(x & _ & ->)]; [done|].
      apply elem_of_app. by left. }
    split; [|split].
    + destruct Hsel as [->|(x & Hx & ->)]; [done|]. apply NoDup_app.
      split; [done|]. split; [|apply NoDup_singleton].
      by intros y Hy ->%list_elem_of_singleton.
    + intros key Hk Hs. destruct Hstore as [Heq|(tb & ts & Heq & _ & Htb)].
      * rewrite Heq in Hs. by apply Hsub, Hcustom.
      * rewrite Heq in Hs. unfold appendSkill in Hs.
        destruct (decide (tb = key)) as [->|Hne].
        -- destruct Htb as [->|[->|Htb]]; [congruence|done|done].
        -- rewrite lookup_insert_ne in Hs by done. by apply Hsub, Hcustom.
    + by rewrite Hact.
  - destruct (handleAddSkill env s) as [[s1 tr]|] eqn:Hadd; [|done].
    intros [= <-]. apply handleAddSkill_effect in Hadd as (Hact & Hsel & Hstore).
    assert (∀ y, y ∈ selectedBroadCategories s → y ∈ selectedBroadCategories s1)
      as Hsub.
    { intros y Hy. destruct Hsel as [->|(x & _ & ->)]; [done|].
      apply elem_of_app. by left. }
    split; [|split].
    + destruct Hsel as [->|(x & Hx & ->)]; [done|]. apply NoDup_app.
      split; [done|]. split; [|apply NoDup_singleton].
      by intros y Hy ->%list_elem_of_singleton.
    + intros key Hk Hs. destruct Hstore as [Heq|(tb & ts & Heq & _ & Htb)].
      * rewrite Heq in Hs. by apply Hsub, Hcustom.
      * rewrite Heq in Hs. unfold appendSkill in Hs.
        destruct (decide (tb = key)) as [->|Hne].
        -- destruct Htb as [->|[->|Htb]]; [congruence|done|done].
        -- rewrite lookup_insert_ne in Hs by done. by apply Hsub, Hcustom.
    + by rewrite Hact.
  - intros Hrun.
    destruct (handleRemoveSkill_effect _ _ _ _ _ Hrun)
      as (Hact & Hsub & Hkeep & Hsame & Hentry & Hother).
    split; [by eapply sublist_NoDup|]. split; [|by rewrite Hact].
    intros key Hk Hs. destruct (decide (key = broadCat)) as [->|Hne].
    + rewrite (Hsame Hs). by apply Hcustom.
    + rewrite Hother in Hs by done. apply Hkeep; [by apply Hcustom|done|].
      by intros ->.
  - intros [= <-]. destruct docSnap as [| |[m|]]; [done|done| |done].
    unfold loadSkills. cbn. split; [apply setFromArray_spec|]. split; [|done].
    intros key Hk Hs. apply setFromArray_spec, elem_of_app.
    destruct (decide (key ∈ selectedBroadCategories s)) as [|Hnot]; [by left|].
    right. apply loadedBroadCategories_spec. right. right.
    split; [by unfold isNamespaced; rewrite Hk|]. split; [by apply keys_elem|done].
  - destruct (fetchSubCategories env _ s) as [[s1 tr]|] eqn:Hrun; [|done].
    intros [= <-]. apply fetchSubCategories_keeps in Hrun as (Hsel & Hst & Hact).
    unfold selectionInvariant. by rewrite Hsel, Hst, Hact.
  - destruct (fetchSpecificSkills env _ _ s) as [[s1 tr]|] eqn:Hrun; [|done].
    intros [= <-]. apply fetchSpecificSkills_keeps in Hrun as (Hsel & Hst & Hact).
    unfold selectionInvariant. by rewrite Hsel, Hst, Hact.
Qed.

Lemma run_invariant (P : AppState → Prop) (Q : FormEvent → Prop) :
  (∀ e s s', Q e → P s → step e s = Some s' → P s') →
  ∀ events s s', Forall Q events → P s → run events s = Some s' → P s'.
Proof.
  intros Hstep. induction events as [|e events IH]; intros s s' HQ HP; cbn.
  - by intros [= <-].
  - apply Forall_cons in HQ as [He HQ].
    destruct (step e s) as [s1|] eqn:Hs1; [|done]. cbn.
    apply IH; [done|]. by eapply Hstep.
Qed.

(** X18: in every state that a session reaches from the initial state,
    the selection holds no category twice, every custom category with an
    entry in the store is selected, and therefore the dropdown of broad
    categories never offers a custom category: its options from the store
    are keys that start with the key for uncategorized skills. The active
    broad category is never a custom key. *)
Theorem X18_custom_category_is_never_offered (events : list FormEvent) (s : AppState)
    (Hrun : run events initialState = Some s) :
  NoDup (selectedBroadCategories s)
  ∧ (∀ key, startsWith "Other_Custom_" key = true →
       is_Some (skillsByCategory s !! key) → key ∈ selectedBroadCategories s)
  ∧ (∀ value, value ∈ activeBroadCategoryOptions s →
       startsWith "Other_Custom_" value = false
       ∧ (value = "" ∨ value ∈ selectedBroadCategories s
          ∨ startsWith "Other_Auto_Uncategorized" value = true))
  ∧ startsWith "Other_Custom_" (activeBroadCategory s) = false.
Proof.
  assert (selectionInvariant s) as (Hnd & Hcustom & Hactive).
  { apply (run_invariant selectionInvariant (λ _, True)
             (λ e s1 s2 _, step_selectionInvariant e s1 s2) events initialState).
    - by apply Forall_forall.
    - split; [apply NoDup_nil_2|]. split; [|done].
      intros key _ [subCats Hs]. change ((∅ : SkillMap) !! key = Some subCats) in Hs.
      by rewrite lookup_empty in Hs.
    - done. }
  split; [done|]. split; [done|]. split; [|done].
  intros value [->|[(Hin & Hc & _)|([Hc|Hu] & Hs & Hnot)]]%activeBroadCategoryOptions_elem.
  - split; [done|by left].
  - split; [done|]. right. by left.
  - exfalso. apply Hnot. by apply Hcustom.
  - split; [|by right; right].
    destruct (startsWith "Other_Custom_" value) eqn:Hc; [|done].
    apply custom_not_uncategorized in Hc. congruence.
Qed.

Lemma X18_custom_category_is_never_offered_witness :
  ∃ s,
    run (take 7 customCategorySession) initialState = Some s
    ∧ NoDup (selectedBroadCategories s)
    ∧ (∀ key, startsWith "Other_Custom_" key = true →
         is_Some (skillsByCategory s !! key) → key ∈ selectedBroadCategories s)
    ∧ (∀ value, value ∈ activeBroadCategoryOptions s →
         startsWith "Other_Custom_" value = false
         ∧ (value = "" ∨ value ∈ selectedBroadCategories s
            ∨ startsWith "Other_Auto_Uncategorized" value = true))
    ∧ startsWith "Other_Custom_" (activeBroadCategory s) = false.
Proof.
  eexists. split; [vm_compute; reflexivity|].
  apply (X18_custom_category_is_never_offered (take 7 customCategorySession)).
  vm_compute. reflexivity.
Defined.





(** ** The controls and their handlers *)



(** X21: the summary has a remove button for exactly the skills of the
    store, each with its own broad category and sub-category: the tests
    on the way (lines 750 and 754) hide no stored skill. It has no button
    exactly when the save would write an empty map. *)
Theorem X21_summary_shows_the_stored_skills (s : AppState) :
  (∀ broadCat subCat skill,
     (broadCat, subCat, skill) ∈ removeButtons s ↔
       ∃ skills, skillsAt (skillsByCategory s) broadCat subCat = Some skills
                 ∧ skill ∈ skills)
  ∧ (removeButtons s = [] ↔ cleanedSkills (skillsByCategory s) = ∅).
Proof.
  split; [apply removeButtons_elem|]. rewrite map_empty. split.
  - intros Hnil broadCat. apply eq_None_not_Some.
    intros (subCats & Hb & (subCat & skills & Hsc & Hne)%has_skill_iff)%cleanedSkills_lookup_Some.
    destruct skills as [|skill skills]; [done|].
    assert ((broadCat, subCat, skill) ∈ removeButtons s) as Hin.
    { apply removeButtons_elem. exists (skill :: skills).
      split; [apply skillsAt_Some; eauto | apply list_elem_of_here]. }
    rewrite Hnil in Hin. by apply elem_of_nil in Hin.
  - intros Hall. destruct (removeButtons s) as [|[[b sc] skill] l] eqn:Hbuttons; [done|].
    exfalso.
    assert ((b, sc, skill) ∈ removeButtons s) as Hin
      by (rewrite Hbuttons; apply list_elem_of_here).
    apply removeButtons_elem in Hin as (skills & (subCats & Hb & Hsc)%skillsAt_Some & Hskill).
    specialize (Hall b). apply eq_None_not_Some in Hall. apply Hall.
    apply cleanedSkills_lookup_Some. exists subCats. split; [done|].
    apply has_skill_iff. exists sc, skills. split; [done|].
    intros ->. by apply elem_of_nil in Hskill.
Qed.

(** The requests of [handleAddSkill] are those of its resolution of the
    target, and it ends with both skill inputs empty unless it had
    nothing to add. *)
Lemma handleAddSkill_trace (env : Env) (s s' : AppState) (tr : list Event) :
  handleAddSkill env s = Some (s', tr) →
  (skillToAdd s = "" ∧ s' = s ∧ tr = [])
  ∨ (skillToAdd s ≠ ""
     ∧ ∃ tb ts st tr0,
         resolveTarget env s = Some (tb, ts, st, tr0)
         ∧ fetchCount tr = fetchCount tr0
         ∧ newSkillInput s' = "" ∧ selectedSuggestedSkill s' = ""
         ∧ loadingAutoCategorization s' = loadingAutoCategorization st
         ∧ loadingSubCategories s' = loadingSubCategories st
         ∧ loadingSpecificSkills s' = loadingSpecificSkills st).
Proof.
  unfold handleAddSkill. cbv zeta.
  destruct (String.eqb (skillToAdd s) "") eqn:Hskill.
  { apply String.eqb_eq in Hskill. intros [= <- <-]. by left. }
  apply String.eqb_neq in Hskill.
  destruct (resolveTarget env s) as [[[[tb ts] st] tr0]|]; [|done].
  intros Hrun. right. split; [done|]. exists tb, ts, st, tr0. split; [done|].
  revert Hrun. destruct (negb (truthy tb)); [|destruct (from_option _ _ _)];
    intros [= <- <-]; rewrite ?fetchCount_app, ?Nat.add_0_r; by repeat split.
Qed.

Lemma resolveTarget_flags (env : Env) (c : AppState) tb ts st tr :
  resolveTarget env c = Some (tb, ts, st, tr) →
  loadingAutoCategorization st = loadingAutoCategorization c
  ∧ loadingSubCategories st = loadingSubCategories c
  ∧ loadingSpecificSkills st = loadingSpecificSkills c.
Proof.
  intros Hres. split.
  { destruct (resolveTarget_spec env c) as (? & ? & ? & ? & Hres' & Hin & _).
    rewrite Hres in Hres'. injection Hres' as <- <- <- <-.
    by destruct Hin as (_ & _ & _ & _ & _ & <-). }
  assert (∀ cat s, loadingSubCategories (selectIfMissing cat c s) = loadingSubCategories s
                   ∧ loadingSpecificSkills (selectIfMissing cat c s)
                     = loadingSpecificSkills s) as Hsel.
  { intros cat s. unfold selectIfMissing. by destruct (negb _). }
  destruct (customTarget c) as [[tb0 ts0] s0] eqn:Hc.
  assert (loadingSubCategories s0 = loadingSubCategories c
          ∧ loadingSpecificSkills s0 = loadingSpecificSkills c) as [Hsub Hspec].
  { revert Hc. unfold customTarget. destruct (_ && _); intros [= <- <- <-]; [|done].
    apply Hsel. }
  destruct (needsAutoCategorization c tb0 ts0) eqn:Hn.
  - destruct (resolveTarget_auto env c _ _ _ Hc Hn) as (r & tr0 & _ & Heq).
    rewrite Hres in Heq. injection Heq as -> -> -> ->.
    destruct (Hsel (autoSelected r) (setLoadingAutoCategorization true s0)) as [H1 H2].
    cbn. rewrite H1, H2. done.
  - rewrite (resolveTarget_manual env c _ _ _ Hc Hn) in Hres.
    by injection Hres as <- <- <- <-.
Qed.

(** [handleAddSkill] makes a request only when the guard of line 393
    holds. *)
Lemma handleAddSkill_requests (env : Env) (s s' : AppState) (tr : list Event) :
  handleAddSkill env s = Some (s', tr) →
  ((1 ≤ fetchCount tr)%nat ↔
     skillToAdd s ≠ ""
     ∧ ∃ tb0 ts0 s0, customTarget s = (tb0, ts0, s0)
                     ∧ needsAutoCategorization s tb0 ts0 = true).
Proof.
  intros Hadd.
  destruct (handleAddSkill_trace env s s' tr Hadd)
    as [(Hskill & _ & ->)|(Hskill & tb & ts & st & tr0 & Hres & -> & _)].
  { split; [vm_compute; lia|]. by intros [? _]. }
  destruct (customTarget s) as [[tb0 ts0] s0] eqn:Hc.
  destruct (needsAutoCategorization s tb0 ts0) eqn:Hn.
  - destruct (resolveTarget_auto env s _ _ _ Hc Hn) as (r & tr1 & Hrun & Heq).
    rewrite Hres in Heq. injection Heq as -> -> -> ->.
    destruct (RetryRun_shape _ _ _ _ Hrun) as ([Hone _] & _).
    split; [|done]. intros _. split; [done|]. by eexists _, _, _.
  - rewrite (resolveTarget_manual env s _ _ _ Hc Hn) in Hres.
    injection Hres as <- <- <- <-. split; [vm_compute; lia|].
    intros (_ & ? & ? & ? & [= <- <- <-] & Hn'). congruence.
Qed.

(** X22: where the form shows the skill input, [handleAddSkill] calls the
    service exactly when a skill is typed, no auto-categorization is
    under way, the active broad category is not Other and no sub-category
    is active. With Other active and a custom name the skill is never
    sent to the service. *)
Theorem X22_auto_categorization_from_the_form (env : Env) (s s' : AppState)
    (tr : list Event)
    (Hshown : skillFieldsShown s = true)
    (Hadd : handleAddSkill env s = Some (s', tr)) :
  (1 ≤ fetchCount tr)%nat
  ↔ trim (newSkillInput s) ≠ ""
    ∧ loadingAutoCategorization s = false
    ∧ activeBroadCategory s ≠ "Other"
    ∧ activeSubCategory s = "".
Proof.
  rewrite (handleAddSkill_requests env s s' tr Hadd).
  unfold skillFieldsShown in Hshown. apply andb_prop in Hshown as [_ Hshown].
  unfold customTarget, needsAutoCategorization, skillToAdd.
  destruct (String.eqb (activeBroadCategory s) "Other") eqn:Hother.
  - rewrite andb_false_r, orb_false_l in Hshown. cbn [andb] in Hshown.
    rewrite Hshown. apply String.eqb_eq in Hother. split; [|tauto].
    intros (_ & ? & ? & ? & [= <- <- <-] & Hn).
    rewrite append_String in Hn. cbn in Hn. by rewrite andb_false_l in Hn.
  - cbn [andb]. apply String.eqb_neq in Hother.
    rewrite andb_true_r, orb_false_r in Hshown. split.
    + intros (_ & ? & ? & ? & [= <- <- <-] & Hn).
      rewrite Hshown, (eqb_false_of_ne _ _ Hother), orb_false_r in Hn. cbn [negb orb] in Hn.
      apply andb_prop in Hn as [[Hsub Htyped]%andb_prop Hload].
      apply negb_true_iff in Hload, Hsub. apply negb_true_iff, String.eqb_neq in Htyped.
      unfold truthy in Hsub. apply negb_false_iff, String.eqb_eq in Hsub. done.
    + intros (Htyped & Hload & _ & Hsub).
      rewrite (eqb_false_of_ne _ _ Htyped). cbn [negb]. split; [done|].
      eexists _, _, _. split; [reflexivity|].
      by rewrite Hsub, Hload, orb_true_r.
Qed.

Lemma X22_auto_categorization_from_the_form_witness :
  ∃ s s' tr,
    run (take 6 customCategorySession) initialState = Some s
    ∧ handleAddSkill envSports s = Some (s', tr)
    ∧ ((1 ≤ fetchCount tr)%nat
       ↔ trim (newSkillInput s) ≠ ""
         ∧ loadingAutoCategorization s = false
         ∧ activeBroadCategory s ≠ "Other"
         ∧ activeSubCategory s = "").
Proof.
  eexists _, _, _. split; [vm_compute; reflexivity|].
  split; [vm_compute; reflexivity|].
  eapply (X22_auto_categorization_from_the_form envSports).
  - vm_compute. reflexivity.
  - vm_compute. reflexivity.
Defined.

(** X23: while the Add button is disabled, the Enter key still calls
    [handleAddSkill], which then makes no request; when the button is
    disabled because nothing is typed or picked, it does nothing at
    all. *)
Theorem X23_enter_while_add_is_disabled (env : Env) (s s' : AppState)
    (tr : list Event)
    (Hdisabled : addDisabled s = true)
    (Hadd : handleAddSkill env s = Some (s', tr)) :
  fetchCount tr = 0%nat
  ∧ (loadingAutoCategorization s = false → s' = s ∧ tr = []).
Proof.
  split.
  - destruct (fetchCount tr) as [|n] eqn:Hcount; [done|]. exfalso.
    assert (1 ≤ fetchCount tr)%nat as Hone by lia.
    apply (handleAddSkill_requests env s s' tr Hadd) in Hone
      as (_ & tb0 & ts0 & s0 & _ & Hn).
    unfold needsAutoCategorization in Hn.
    apply andb_prop in Hn as [[_ Htyped]%andb_prop Hload].
    unfold addDisabled in Hdisabled.
    apply negb_true_iff in Htyped, Hload. by rewrite Htyped, Hload in Hdisabled.
  - intros Hload. unfold addDisabled in Hdisabled.
    rewrite Hload, orb_false_r in Hdisabled.
    apply andb_prop in Hdisabled as [Htyped Hpicked].
    revert Hadd. unfold handleAddSkill, skillToAdd. rewrite Htyped. cbn [negb].
    rewrite Hpicked. by intros [= <- <-].
Qed.

Lemma X23_enter_while_add_is_disabled_witness :
  ∃ s' tr,
    handleAddSkill envDown (setLoadingAutoCategorization true typedJuggling)
    = Some (s', tr)
    ∧ fetchCount tr = 0%nat
    ∧ (loadingAutoCategorization (setLoadingAutoCategorization true typedJuggling)
       = false →
       s' = setLoadingAutoCategorization true typedJuggling ∧ tr = []).
Proof.
  eexists _, _. split; [vm_compute; reflexivity|].
  eapply (X23_enter_while_add_is_disabled envDown
            (setLoadingAutoCategorization true typedJuggling)).
  - vm_compute. reflexivity.
  - vm_compute. reflexivity.
Defined.

(** X24: after [handleAddSkill] nothing is left to add: the Add button is
    disabled, a second call does nothing, and the flag of the
    auto-categorization is as it was before the call. *)
Theorem X24_nothing_pending_after_add (env : Env) (s s' : AppState) (tr : list Event)
    (Hadd : handleAddSkill env s = Some (s', tr)) :
  skillToAdd s' = ""
  ∧ addDisabled s' = true
  ∧ (∀ env', handleAddSkill env' s' = Some (s', []))
  ∧ loadingAutoCategorization s' = loadingAutoCategorization s.
Proof.
  assert (skillToAdd s' = ""
          ∧ loadingAutoCategorization s' = loadingAutoCategorization s) as [Hnone Hload].
  { destruct (handleAddSkill_trace env s s' tr Hadd)
      as [(Hskill & -> & _)|(_ & tb & ts & st & tr0 & Hres & _ & Htyped & Hpicked & Hl & _)];
      [done|].
    split; [by unfold skillToAdd; rewrite Htyped, Hpicked|].
    rewrite Hl. by destruct (resolveTarget_flags env s _ _ _ _ Hres) as [-> _]. }
  split; [done|]. split; [|split; [|done]].
  - unfold addDisabled. unfold skillToAdd in Hnone.
    destruct (String.eqb (trim (newSkillInput s')) "") eqn:Htyped; cbn [negb] in Hnone.
    + by rewrite Hnone.
    + apply String.eqb_neq in Htyped. done.
  - intros env'. unfold handleAddSkill. by rewrite Hnone.
Qed.

Lemma X24_nothing_pending_after_add_witness :
  ∃ s' tr,
    handleAddSkill envDown typedSongwriting = Some (s', tr)
    ∧ skillToAdd s' = ""
    ∧ addDisabled s' = true
    ∧ (∀ env', handleAddSkill env' s' = Some (s', []))
    ∧ loadingAutoCategorization s' = loadingAutoCategorization typedSongwriting.
Proof.
  eexists _, _. split; [vm_compute; reflexivity|].
  eapply (X24_nothing_pending_after_add envDown typedSongwriting).
  vm_compute. reflexivity.
Defined.

(** ** Saving and loading back *)

Lemma skillsAt_cleanedSkills (m : SkillMap) (broadCat subCat : string)
    (skills : list string) :
  skills ≠ [] →
  skillsAt (cleanedSkills m) broadCat subCat = Some skills
  ↔ skillsAt m broadCat subCat = Some skills.
Proof.
  intros Hskills. rewrite !skillsAt_Some. split.
  - intros (subCats & Hb & Hsc). rewrite cleanedSkills_lookup in Hb.
    destruct (m !! broadCat) as [subCats0|]; [|done].
    case_bool_decide; [|done]. injection Hb as <-.
    rewrite cleanedSubCats_lookup in Hsc.
    destruct (subCats0 !! subCat) as [skills0|] eqn:Hsc0; [|done].
    case_bool_decide; [|done]. injection Hsc as <-. eauto.
  - intros (subCats & Hb & Hsc).
    assert (cleanedSubCats subCats !! subCat = Some skills) as Hc.
    { rewrite cleanedSubCats_lookup, Hsc.
      by rewrite bool_decide_eq_true_2 by by apply length_pos_iff. }
    exists (cleanedSubCats subCats). split; [|done].
    rewrite cleanedSkills_lookup, Hb. rewrite bool_decide_eq_true_2; [done|].
    assert (cleanedSubCats subCats ≠ ∅) as Hne by (intros Hemp; by rewrite Hemp in Hc).
    apply map_size_non_empty_iff in Hne. lia.
Qed.

(** X25: the document that the save writes, loaded back into the state
    it was saved from: the store becomes the saved map, which is the
    store itself when that had no empty container; the summary has the
    same remove buttons and the Continue button the same [disabled]
    value as before; every selected category stays selected, and every
    saved key that is a standard category or in the custom or auto name
    space is selected. *)
Theorem X25_saved_store_loads_back (s : AppState) :
  let saved := cleanedSkills (skillsByCategory s) in
  let s' := loadSkills (DocData (Some saved)) s s in
  skillsByCategory s' = saved
  ∧ (noEmptyContainer (skillsByCategory s) → skillsByCategory s' = skillsByCategory s)
  ∧ (∀ button, button ∈ removeButtons s' ↔ button ∈ removeButtons s)
  ∧ (∀ isAuthReady savingStatus,
       continueDisabled (skillsByCategory s') isAuthReady savingStatus
       = continueDisabled (skillsByCategory s) isAuthReady savingStatus)
  ∧ (∀ key, key ∈ selectedBroadCategories s → key ∈ selectedBroadCategories s')
  ∧ (∀ key, is_Some (saved !! key) →
       key ∈ broadCategories ∨ isNamespaced key = true →
       key ∈ selectedBroadCategories s').
Proof.
  intros saved s'.
  assert (skillsByCategory s' = saved) as Hstore by done.
  assert (∀ key, key ∈ selectedBroadCategories s' ↔
            key ∈ selectedBroadCategories s
            ∨ key ∈ loadedBroadCategories s (keys saved)) as Hsel.
  { intros key. unfold s', loadSkills. cbn.
    destruct (setFromArray_spec
                (selectedBroadCategories s ++ loadedBroadCategories s (keys saved)))
      as [_ Hin].
    by rewrite Hin, elem_of_app. }
  split; [done|]. split; [intros Hno; by rewrite Hstore; apply cleanedSkills_id|].
  split; [|split; [|split]].
  - intros [[b sc] skill]. rewrite !removeButtons_elem, Hstore.
    split; intros (skills & Hat & Hin); exists skills; (split; [|done]);
      apply (skillsAt_cleanedSkills (skillsByCategory s)); try done;
      intros ->; by apply elem_of_nil in Hin.
  - intros isAuthReady savingStatus. rewrite Hstore. unfold continueDisabled.
    do 2 f_equal. apply eq_true_iff_eq. rewrite !no_skill_iff.
    unfold saved. by rewrite (cleanedSkills_id _ (cleanedSkills_noEmpty _)).
  - intros key Hkey. apply Hsel. by left.
  - intros key Hsaved Hkind. apply Hsel.
    destruct (decide (key ∈ selectedBroadCategories s)) as [|Hnot]; [by left|].
    right. apply loadedBroadCategories_spec.
    destruct Hkind as [Hstd|Hns].
    + left. split; [done|]. by apply keys_elem.
    + right. right. split; [done|]. split; [by apply keys_elem|done].
Qed.

(** ** What is stored *)


